(** * Camera position calculator: time alignment and interpolation

    A shallow embedding of [CameraPosCalculator.py]: the filename
    identifier, the two table parsers with their day-boundary
    correction, the position interpolator and the per-image
    correlation loop.

    Conventions of the embedding.
    - In the parsers, the day-boundary correction and the correlation
      loop a Python [float] is an exact rational of [Q]: rounding,
      overflow, [inf] and [nan] are not modelled there, and a statement
      about the value of a sum, a product or a quotient is a statement
      about the exact one.  Comparisons of the source ([<], [<=], [==])
      are the boolean comparisons of [Q].
    - The interpolator is given twice: over [Q], and over any
      arithmetic of the cells ([interpolate_coordinates_on]), with
      IEEE 754 binary64 and wrapping 64-bit integer cells as
      instances, where it computes bit for bit as the code does.
    - A raised exception is the [Raise] branch of [result]; a
      [try]/[except] is a [match] on it.
    - A [pandas] table is a list of rows and a row is a list of
      [cell]s: what [read_csv] hands over is either a number or,
      for a column holding a token that is not a number, the text
      itself. *)

From Stdlib Require Import PrimFloat Floats.
From Stdlib Require Import QArith ZArith List String Ascii Bool Lia Lqa Qround.
Import ListNotations.

Local Open Scope Q_scope.

(** ** Exceptions and the error monad *)

Inductive exn : Type :=
| ValueError
| IndexError
| TypeError
| AttributeError.

Inductive result (A : Type) : Type :=
| Ok (a : A)
| Raise (e : exn).

Arguments Ok {A} a.
Arguments Raise {A} e.

Definition bind {A B : Type} (m : result A) (k : A -> result B) : result B :=
  match m with
  | Ok a => k a
  | Raise e => Raise e
  end.

Notation "x <- m ;; k" := (bind m (fun x => k))
  (at level 61, m at next level, right associativity).

(** [l[i]]: an index past the end raises [IndexError]. *)
Definition subscript {A : Type} (l : list A) (i : nat) : result A :=
  match nth_error l i with
  | Some a => Ok a
  | None => Raise IndexError
  end.

(** A builtin conversion that either yields a value or raises
    [ValueError] ([int(s)], [float(s)] on a string). *)
Definition convert {A : Type} (parse : string -> option A) (s : string)
  : result A :=
  match parse s with
  | Some a => Ok a
  | None => Raise ValueError
  end.

Fixpoint mapM {A B : Type} (f : A -> result B) (l : list A)
  : result (list B) :=
  match l with
  | [] => Ok []
  | a :: l' => b <- f a ;; bs <- mapM f l' ;; Ok (b :: bs)
  end.

(** ** Strings *)

(** [s.split(sep)] for a one-character separator: every occurrence
    cuts, so the result never is empty. *)
Fixpoint split_on (sep : ascii) (s : string) : list string :=
  match s with
  | EmptyString => [EmptyString]
  | String c s' =>
      if Ascii.eqb c sep then EmptyString :: split_on sep s'
      else match split_on sep s' with
           | [] => [String c EmptyString]
           | p :: ps => String c p :: ps
           end
  end.

(** Decimal digits, for the concrete readers used in the examples. *)
Definition digit_of (c : ascii) : option Z :=
  let n := Z.of_nat (nat_of_ascii c) in
  if ((48 <=? n) && (n <=? 57))%Z then Some (n - 48)%Z else None.

Fixpoint digits_acc (acc : Z) (s : string) : option Z :=
  match s with
  | EmptyString => Some acc
  | String c s' =>
      match digit_of c with
      | Some d => digits_acc (10 * acc + d)%Z s'
      | None => None
      end
  end.

Definition digits (s : string) : option Z :=
  match s with
  | EmptyString => None
  | _ => digits_acc 0 s
  end.

Definition signed {A : Type} (neg : A -> A) (body : string -> option A)
  (s : string) : option A :=
  match s with
  | String "-" s' => option_map neg (body s')
  | String "+" s' => body s'
  | _ => body s
  end.

(** [int(s)] on the plain literals: an optional sign and digits. *)
Definition decimal_int : string -> option Z := signed Z.opp digits.

(** [float(s)] on the plain literals: an optional sign, digits and an
    optional fraction. *)
Definition decimal_float : string -> option Q :=
  signed Qopp (fun s =>
    match split_on "." s with
    | [ip] => option_map inject_Z (digits ip)
    | [ip; fp] =>
        match digits ip, digits fp with
        | Some i, Some f =>
            Some (inject_Z i + inject_Z f / inject_Z (10 ^ Z.of_nat (String.length fp)))
        | _, _ => None
        end
    | _ => None
    end).

(** ** ImageIdentifier *)

Section ImageIdentifier.

(** [int] on a string: [None] stands for its [ValueError]. *)
Variable py_int : string -> option Z.

(** The body of the [try] block; falling out of the [if] without a
    [return] is [Ok None] here, the [return None] after the block. *)
Definition extract_try (filename : string) : result (option Z) :=
  let parts := split_on "_" filename in
  if (3 <=? List.length parts)%nat then
    tok <- subscript parts 2 ;;
    id_part <- subscript (split_on "." tok) 0 ;;
    n <- convert py_int id_part ;;
    Ok (Some n)
  else Ok None.

Definition extract_image_id_from_filename (filename : string)
  : result (option Z) :=
  match extract_try filename with
  | Ok r => Ok r
  | Raise ValueError => Ok None
  | Raise IndexError => Ok None
  | Raise e => Raise e
  end.

End ImageIdentifier.

(** ** Tables read by pandas *)

(** A cell is a number or text.  A blank field, which pandas reads as
    [nan], and the tokens it reads as [inf] have no counterpart here:
    the tables of this file have none. *)
Inductive cell : Type :=
| Num (q : Q)
| Str (s : string).

(** [table.iloc[i, j]] on row [i]: a column past the end raises
    [IndexError]. *)
Definition iloc (row : list cell) (j : nat) : result cell := subscript row j.

(** [c.split(sep)]: only text has the method. *)
Definition cell_split (sep : ascii) (c : cell) : result (list string) :=
  match c with
  | Str s => Ok (split_on sep s)
  | Num _ => Raise AttributeError
  end.

(** The operand [c] of [c / 3600.0]: text raises [TypeError]. *)
Definition cell_number (c : cell) : result Q :=
  match c with
  | Num q => Ok q
  | Str _ => Raise TypeError
  end.

(** One row [[seconds, hours, east, north, elevation]] of the processed
    trajectory.  The parser copies the three coordinates as it finds
    them, so their type [C] is left open; the interpolator computes
    with them at [C := Q]. *)
Record sample (C : Type) : Type := Sample {
  total_seconds : Q;
  hours_decimal : Q;
  east : C;
  north : C;
  elevation : C
}.

Arguments Sample {C}.
Arguments total_seconds {C}.
Arguments hours_decimal {C}.
Arguments east {C}.
Arguments north {C}.
Arguments elevation {C}.

(** [[east_offset, north_offset, elev_offset]], in millimetres. *)
Record offset : Type := Offset {
  east_offset : Q;
  north_offset : Q;
  elev_offset : Q
}.

Definition Qltb (x y : Q) : bool := negb (Qle_bool y x).

(** ** Day-boundary correction *)

(** [rinex_processed[i][1] += 24.0]. *)
Definition add_day {C : Type} (s : sample C) : sample C :=
  Sample (total_seconds s) (hours_decimal s + 24) (east s) (north s) (elevation s).

(** The loop of [process_rinex_data] over [t] from 1: [past] is row
    [t - 1], the head of [rest] is row [t].  Nothing is written before
    the [break], so every comparison reads the values as parsed. *)
Fixpoint rinex_rollover_from {C : Type} (past : sample C) (rest : list (sample C))
  : list (sample C) :=
  match rest with
  | [] => []
  | current :: later =>
      if Qle_bool (hours_decimal current - hours_decimal past) 0
      then map add_day rest
      else current :: rinex_rollover_from current later
  end.

Definition rinex_rollover {C : Type} (rinex_processed : list (sample C))
  : list (sample C) :=
  match rinex_processed with
  | [] => []
  | first :: rest => first :: rinex_rollover_from first rest
  end.

(** The loop of [process_timestamp_data]: the test is strict. *)
Fixpoint timestamp_rollover_from (past : Q) (rest : list Q) : list Q :=
  match rest with
  | [] => []
  | current :: later =>
      if Qltb (current - past) 0
      then map (fun h => h + 24) rest
      else current :: timestamp_rollover_from current later
  end.

Definition timestamp_rollover (image_times : list Q) : list Q :=
  match image_times with
  | [] => []
  | first :: rest => first :: timestamp_rollover_from first rest
  end.

(** ** TrajectoryParser and CaptureLogParser *)

(** [int(x)] on a float: the fraction is dropped, towards zero. *)
Definition py_int_of_float (x : Q) : Z := Z.quot (Qnum x) (Zpos (Qden x)).

(** [(seconds / 3600.0) - int(seconds / 3600.0 / 24.0) * 24.0], on
    exact rationals: the two quotients and the difference are not
    rounded, and [int] is never handed [nan] or [inf], which it
    refuses. *)
Definition image_time_of (seconds : Q) : Q :=
  seconds / 3600 - inject_Z (py_int_of_float (seconds / 3600 / 24)) * 24.

Section Parsers.

(** [float] on a string: [None] stands for its [ValueError]. *)
Variable py_float : string -> option Q.

Definition rinex_row (row : list cell) : result (sample cell) :=
  hms_str <- iloc row 5 ;;
  hms_parts <- cell_split ":" hms_str ;;
  hms_values <- mapM (convert py_float) hms_parts ;;
  match hms_values with
  | [hours; minutes; seconds] =>
      let total := hours * 3600 + minutes * 60 + seconds in
      let hours_dec := total / 3600 in
      e <- iloc row 24 ;;
      n <- iloc row 25 ;;
      z <- iloc row 33 ;;
      Ok (Sample total hours_dec e n z)
  | _ => Raise ValueError
  end.

Definition rinex_try (rinex_data : list (list cell))
  : result (list (sample cell)) :=
  rinex_processed <- mapM rinex_row rinex_data ;;
  Ok (rinex_rollover rinex_processed).

(** [except Exception]: whatever was raised, the empty list. *)
Definition process_rinex_data (rinex_data : list (list cell))
  : list (sample cell) :=
  match rinex_try rinex_data with
  | Ok rinex_processed => rinex_processed
  | Raise _ => []
  end.

(** The first comma-separated token of an offset column, as a float. *)
Definition offset_field (row : list cell) (j : nat) : result string :=
  c <- iloc row j ;;
  parts <- cell_split "," c ;;
  subscript parts 0.

Definition timestamp_row (row : list cell) : result (cell * Q * offset) :=
  image_id <- iloc row 0 ;;
  seconds_cell <- iloc row 1 ;;
  seconds <- cell_number seconds_cell ;;
  let image_time := image_time_of seconds in
  east_str <- offset_field row 4 ;;
  north_str <- offset_field row 3 ;;
  elev_str <- offset_field row 5 ;;
  e <- convert py_float east_str ;;
  n <- convert py_float north_str ;;
  z <- convert py_float elev_str ;;
  Ok (image_id, image_time, Offset e n z).

Definition timestamp_try (timestamp_data : list (list cell))
  : result (list Q * list cell * list offset) :=
  rows <- mapM timestamp_row timestamp_data ;;
  let image_times := map (fun r => snd (fst r)) rows in
  let image_ids := map (fun r => fst (fst r)) rows in
  let offsets := map snd rows in
  Ok (timestamp_rollover image_times, image_ids, offsets).

Definition process_timestamp_data (timestamp_data : list (list cell))
  : list Q * list cell * list offset :=
  match timestamp_try timestamp_data with
  | Ok r => r
  | Raise _ => ([], [], [])
  end.

End Parsers.

(** ** PositionInterpolator *)

Definition position : Type := (Q * Q * Q)%type.

(** The body of the loop at index [i]: [before] is row [i - 1], [after]
    is row [i].  [None] means neither test held and the loop goes on.
    The tests and their order are those of the code; the blend is the
    exact one, which binary64 rounds at every operation
    ([interpolate_pair_on] has the operations left open). *)
Definition interpolate_pair (hour : Q) (before after : sample Q) (off : offset)
  : option position :=
  let time_before := hours_decimal before in
  let time_after := hours_decimal after in
  if Qltb time_before hour && Qltb hour time_after then
    let delta_time_total := time_after - time_before in
    let delta_time_partial := hour - time_before in
    let weight := delta_time_partial / delta_time_total in
    let east_coord := east before + (east after - east before) * weight in
    let north_coord := north before + (north after - north before) * weight in
    let elev_coord := elevation before + (elevation after - elevation before) * weight in
    Some (east_coord + east_offset off / 1000,
          north_coord + north_offset off / 1000,
          elev_coord - elev_offset off / 1000)
  else if Qeq_bool time_before hour then
    Some (east before + east_offset off / 1000,
          north before + north_offset off / 1000,
          elevation before - elev_offset off / 1000)
  else None.

Fixpoint interpolate_from (hour : Q) (before : sample Q) (rest : list (sample Q))
  (off : offset) : result position :=
  match rest with
  | [] => Raise ValueError
  | after :: later =>
      match interpolate_pair hour before after off with
      | Some p => Ok p
      | None => interpolate_from hour after later off
      end
  end.

Definition interpolate_coordinates (hour : Q) (rinex_data : list (sample Q))
  (off : offset) : result position :=
  match rinex_data with
  | [] => Raise ValueError
  | first :: rest => interpolate_from hour first rest off
  end.

(** ** PositionInterpolator in the arithmetic of the cells *)

(** The operations [interpolate_coordinates] applies to what it is
    handed.  The hours and the offsets are Python floats, of type [T]
    here.  A coordinate is the cell as pandas read it, of type [C]: a
    [numpy.float64] for a column with a decimal point somewhere, a
    [numpy.int64] for a column of integers only.  Cell minus cell stays
    in [C]; a cell times, plus or minus a float is a float. *)
Record arithmetic (T C : Type) : Type := Arithmetic {
  num_lt : T -> T -> bool;
  num_eq : T -> T -> bool;
  num_add : T -> T -> T;
  num_sub : T -> T -> T;
  num_div : T -> T -> T;
  num_1000 : T;
  cell_sub : C -> C -> C;
  cell_mul : C -> T -> T;
  cell_add : C -> T -> T;
  cell_minus : C -> T -> T
}.

Arguments Arithmetic {T C}.
Arguments num_lt {T C}.
Arguments num_eq {T C}.
Arguments num_add {T C}.
Arguments num_sub {T C}.
Arguments num_div {T C}.
Arguments num_1000 {T C}.
Arguments cell_sub {T C}.
Arguments cell_mul {T C}.
Arguments cell_add {T C}.
Arguments cell_minus {T C}.

(** One row [[seconds, hours, east, north, elevation]] of
    [rinex_data]. *)
Record entry (T C : Type) : Type := Entry {
  entry_seconds : T;
  entry_hours : T;
  entry_east : C;
  entry_north : C;
  entry_elevation : C
}.

Arguments Entry {T C}.
Arguments entry_seconds {T C}.
Arguments entry_hours {T C}.
Arguments entry_east {T C}.
Arguments entry_north {T C}.
Arguments entry_elevation {T C}.

Section Arithmetic.

Context {T C : Type}.
Variable ops : arithmetic T C.

(** The body of the loop at index [i], operation by operation:
    [before] is row [i - 1], [after] is row [i]. *)
Definition interpolate_pair_on (hour : T) (before after : entry T C)
  (offset : T * T * T) : option (T * T * T) :=
  let '(east_offset, north_offset, elev_offset) := offset in
  let time_before := entry_hours before in
  let time_after := entry_hours after in
  if num_lt ops time_before hour && num_lt ops hour time_after then
    let delta_time_total := num_sub ops time_after time_before in
    let delta_time_partial := num_sub ops hour time_before in
    let weight := num_div ops delta_time_partial delta_time_total in
    let east_coord :=
      cell_add ops (entry_east before)
        (cell_mul ops (cell_sub ops (entry_east after) (entry_east before))
           weight) in
    let north_coord :=
      cell_add ops (entry_north before)
        (cell_mul ops (cell_sub ops (entry_north after) (entry_north before))
           weight) in
    let elev_coord :=
      cell_add ops (entry_elevation before)
        (cell_mul ops
           (cell_sub ops (entry_elevation after) (entry_elevation before))
           weight) in
    Some (num_add ops east_coord (num_div ops east_offset (num_1000 ops)),
          num_add ops north_coord (num_div ops north_offset (num_1000 ops)),
          num_sub ops elev_coord (num_div ops elev_offset (num_1000 ops)))
  else if num_eq ops time_before hour then
    Some (cell_add ops (entry_east before)
            (num_div ops east_offset (num_1000 ops)),
          cell_add ops (entry_north before)
            (num_div ops north_offset (num_1000 ops)),
          cell_minus ops (entry_elevation before)
            (num_div ops elev_offset (num_1000 ops)))
  else None.

Fixpoint interpolate_from_on (hour : T) (before : entry T C)
  (rest : list (entry T C)) (offset : T * T * T) : result (T * T * T) :=
  match rest with
  | [] => Raise ValueError
  | after :: later =>
      match interpolate_pair_on hour before after offset with
      | Some p => Ok p
      | None => interpolate_from_on hour after later offset
      end
  end.

Definition interpolate_coordinates_on (hour : T) (rinex_data : list (entry T C))
  (offset : T * T * T) : result (T * T * T) :=
  match rinex_data with
  | [] => Raise ValueError
  | first :: rest => interpolate_from_on hour first rest offset
  end.

(** [time[i-1] < query_hour < time[i]] and [time[i-1] == query_hour],
    as the comparisons of the arithmetic decide them. *)
Definition interior_on (hour : T) (before after : entry T C) : Prop :=
  num_lt ops (entry_hours before) hour = true /\
  num_lt ops hour (entry_hours after) = true.

Definition boundary_on (hour : T) (before : entry T C) : Prop :=
  num_eq ops (entry_hours before) hour = true.

(** [weight = (query_hour - time[i-1]) / (time[i] - time[i-1])]. *)
Definition weight_on (hour : T) (before after : entry T C) : T :=
  num_div ops (num_sub ops hour (entry_hours before))
    (num_sub ops (entry_hours after) (entry_hours before)).

(** A coordinate blended with the weight:
    [sample[i-1].coord + (sample[i].coord - sample[i-1].coord) * weight]. *)
Definition mix_on (weight : T) (c0 c1 : C) : T :=
  cell_add ops c0 (cell_mul ops (cell_sub ops c1 c0) weight).

(** The three coordinates blended with the weight of the pair, then
    the offset: added to east and north, subtracted from elevation. *)
Definition blend_on (hour : T) (before after : entry T C)
  (offset : T * T * T) : T * T * T :=
  let '(east_offset, north_offset, elev_offset) := offset in
  let weight := weight_on hour before after in
  (num_add ops (mix_on weight (entry_east before) (entry_east after))
     (num_div ops east_offset (num_1000 ops)),
   num_add ops (mix_on weight (entry_north before) (entry_north after))
     (num_div ops north_offset (num_1000 ops)),
   num_sub ops (mix_on weight (entry_elevation before) (entry_elevation after))
     (num_div ops elev_offset (num_1000 ops))).

End Arithmetic.

(** Python floats and [numpy.float64] cells: IEEE 754 binary64, round
    to nearest even; [<] and [==] are false on [nan]. *)
Definition binary64 : arithmetic float float :=
  Arithmetic PrimFloat.ltb PrimFloat.eqb
    PrimFloat.add PrimFloat.sub PrimFloat.div 1000%float
    PrimFloat.sub PrimFloat.mul PrimFloat.add PrimFloat.sub.

(** [numpy.int64] minus [numpy.int64]: the difference modulo [2^64],
    in [[-2^63, 2^63)]. *)
Definition wrap64 (z : Z) : Z := ((z + 2 ^ 63) mod 2 ^ 64 - 2 ^ 63)%Z.

(** An integer as the nearest binary64, ties to even. *)
Definition float_of_int (z : Z) : float :=
  SF2Prim (binary_normalize prec emax z 0 false).

(** [numpy.int64] cells under Python floats: the difference of two
    cells wraps, and a cell meets a float as a binary64. *)
Definition int64_cells : arithmetic float Z :=
  Arithmetic PrimFloat.ltb PrimFloat.eqb
    PrimFloat.add PrimFloat.sub PrimFloat.div 1000%float
    (fun c1 c0 => wrap64 (c1 - c0))
    (fun c w => PrimFloat.mul (float_of_int c) w)
    (fun c x => PrimFloat.add (float_of_int c) x)
    (fun c x => PrimFloat.sub (float_of_int c) x).

(** The exact arithmetic of [interpolate_pair]. *)
Definition rational : arithmetic Q Q :=
  Arithmetic Qltb Qeq_bool Qplus Qminus Qdiv 1000 Qminus Qmult Qplus Qminus.

Definition as_entry (s : sample Q) : entry Q Q :=
  Entry (total_seconds s) (hours_decimal s) (east s) (north s) (elevation s).

Definition as_triple (off : offset) : Q * Q * Q :=
  (east_offset off, north_offset off, elev_offset off).

(** ** Correlator: the matching loop of [camera_position_calculator] *)

(** [c == image_id] for an integer [image_id]: text never equals it. *)
Definition cell_eq_int (c : cell) (image_id : Z) : bool :=
  match c with
  | Num q => Qeq_bool q (inject_Z image_id)
  | Str _ => false
  end.

(** [image_ids.index(image_id)]: the first index that compares equal,
    [ValueError] when there is none. *)
Fixpoint py_index (image_ids : list cell) (image_id : Z) : result nat :=
  match image_ids with
  | [] => Raise ValueError
  | c :: rest =>
      if cell_eq_int c image_id then Ok 0%nat
      else i <- py_index rest image_id ;; Ok (S i)
  end.

Record capture_log : Type := CaptureLog {
  image_times : list Q;
  image_ids : list cell;
  offsets : list offset
}.

(** The body of the [try] block that [camera_position_calculator] runs
    for one image. *)
Definition locate_image (log : capture_log) (rinex_data : list (sample Q))
  (image_id : Z) : result position :=
  timestamp_index <- py_index (image_ids log) image_id ;;
  hour <- subscript (image_times log) timestamp_index ;;
  off <- subscript (offsets log) timestamp_index ;;
  interpolate_coordinates hour rinex_data off.

Record tally : Type := Tally {
  output_data : list (string * position);
  matched_count : nat;
  unmatched_images : list (string * Z)
}.

(** One turn of the loop of [camera_position_calculator] over the
    images: [ValueError] and [IndexError] put the image with the
    unmatched ones, anything else leaves the loop. *)
Definition camera_position_step (log : capture_log) (rinex_data : list (sample Q))
  (st : tally) (image : string * Z) : result tally :=
  let (image_file, image_id) := image in
  match locate_image log rinex_data image_id with
  | Ok p =>
      Ok (Tally (output_data st ++ [(image_file, p)])
                (S (matched_count st))
                (unmatched_images st))
  | Raise ValueError | Raise IndexError =>
      Ok (Tally (output_data st) (matched_count st)
                (unmatched_images st ++ [(image_file, image_id)]))
  | Raise e => Raise e
  end.

Fixpoint camera_position_loop (log : capture_log) (rinex_data : list (sample Q))
  (st : tally) (images : list (string * Z)) : result tally :=
  match images with
  | [] => Ok st
  | image :: rest =>
      st' <- camera_position_step log rinex_data st image ;;
      camera_position_loop log rinex_data st' rest
  end.

(** ** Vocabulary of the statements *)

(** Rows [k] and [k + 1] of a list: the pair the loops call
    [(i - 1, i)] with [i = k + 1]. *)
Definition pair_at {A : Type} (l : list A) (k : nat) (a b : A) : Prop :=
  nth_error l k = Some a /\ nth_error l (S k) = Some b.

(** [time[i-1] < query_hour < time[i]]. *)
Definition interior (hour : Q) (before after : sample Q) : Prop :=
  hours_decimal before < hour /\ hour < hours_decimal after.

(** [time[i-1] == query_hour]. *)
Definition boundary (hour : Q) (before : sample Q) : Prop :=
  hours_decimal before == hour.

(** The loop of [interpolate_coordinates] gets as far as pair [k]:
    every pair before it failed both tests. *)
Definition scanned (hour : Q) (data : list (sample Q)) (k : nat) : Prop :=
  forall j a b, (j < k)%nat -> pair_at data j a b ->
    ~ interior hour a b /\ ~ boundary hour a.

(** [hours[i] >= hours[i-1]] for every adjacent pair. *)
Definition adjacent_ge (hs : list Q) : Prop :=
  forall k a b, pair_at hs k a b -> a <= b.

Definition hours_of {C : Type} (l : list (sample C)) : list Q :=
  map hours_decimal l.

(** The position between two rows at [hour], before the offset. *)
Definition lerp (hour : Q) (a b : sample Q) : position :=
  let weight := (hour - hours_decimal a) / (hours_decimal b - hours_decimal a) in
  (east a + (east b - east a) * weight,
   north a + (north b - north a) * weight,
   elevation a + (elevation b - elevation a) * weight).

(** The position of a row. *)
Definition position_of (a : sample Q) : position :=
  (east a, north a, elevation a).

(** Millimetres to the unit of the coordinates; east and north are
    added, elevation is subtracted. *)
Definition apply_offset (p : position) (off : offset) : position :=
  let '(e, n, z) := p in
  (e + east_offset off / 1000,
   n + north_offset off / 1000,
   z - elev_offset off / 1000).

Definition blend (hour : Q) (a b : sample Q) (off : offset) : position :=
  apply_offset (lerp hour a b) off.

Definition unblended (a : sample Q) (off : offset) : position :=
  apply_offset (position_of a) off.

(** Componentwise [==] of positions. *)
Definition position_eq (p q : position) : Prop :=
  let '(e, n, z) := p in
  let '(e', n', z') := q in
  e == e' /\ n == n' /\ z == z'.

(** ** The correction in the words of the specification *)

(** "Scan samples from index 1; at the first index [t] where the
    trigger holds of [hours[t]] and [hours[t-1]] ..." *)
Definition rollover_index (trigger : Q -> Q -> bool) (hs : list Q) : option nat :=
  find (fun t => trigger (nth t hs 0) (nth (t - 1) hs 0))
       (seq 1 (List.length hs - 1)).

(** "... add 24.0 to [hours[t]] and every later sample, then stop
    scanning." *)
Definition unwrap_spec (trigger : Q -> Q -> bool) (hs : list Q) : list Q :=
  match rollover_index trigger hs with
  | Some t => firstn t hs ++ map (fun h => h + 24) (skipn t hs)
  | None => hs
  end.

(** [hours[t] <= hours[t-1]]. *)
Definition at_or_below (current past : Q) : bool := Qle_bool current past.

(** [hours[t] < hours[t-1]]. *)
Definition below (current past : Q) : bool := Qltb current past.

(** One rollover at most: from the first index [t] where the trigger
    holds, the hours as parsed never decrease, and [hours[t-1]] is no
    more than a day ahead of [hours[t]]. *)
Definition single_rollover (trigger : Q -> Q -> bool) (hs : list Q) : Prop :=
  forall t, rollover_index trigger hs = Some t ->
    adjacent_ge (skipn t hs) /\ nth (t - 1) hs 0 <= nth t hs 0 + 24.

(** ** Rows that a parser cannot take *)

(** A trajectory row with a column missing, with a time field that is
    not [H:M:S] text, or with a time component that [float] refuses. *)
Inductive rinex_row_malformed (py_float : string -> option Q) (row : list cell)
  : Prop :=
| rinex_columns_missing :
    (List.length row <= 33)%nat -> rinex_row_malformed py_float row
| rinex_time_not_text (q : Q) :
    nth_error row 5 = Some (Num q) -> rinex_row_malformed py_float row
| rinex_time_field_count (s : string) :
    nth_error row 5 = Some (Str s) ->
    List.length (split_on ":" s) <> 3%nat ->
    rinex_row_malformed py_float row
| rinex_time_not_numeric (s p : string) :
    nth_error row 5 = Some (Str s) ->
    In p (split_on ":" s) -> py_float p = None ->
    rinex_row_malformed py_float row.

(** A capture-log row with a column missing, with text for seconds, or
    with an offset that is a bare number or whose first token [float]
    refuses. *)
Inductive timestamp_row_malformed (py_float : string -> option Q) (row : list cell)
  : Prop :=
| timestamp_columns_missing :
    (List.length row <= 5)%nat -> timestamp_row_malformed py_float row
| timestamp_seconds_text (s : string) :
    nth_error row 1 = Some (Str s) -> timestamp_row_malformed py_float row
| timestamp_offset_not_text (j : nat) (q : Q) :
    In j [3; 4; 5]%nat -> nth_error row j = Some (Num q) ->
    timestamp_row_malformed py_float row
| timestamp_offset_not_numeric (j : nat) (s : string) :
    In j [3; 4; 5]%nat -> nth_error row j = Some (Str s) ->
    py_float (hd EmptyString (split_on "," s)) = None ->
    timestamp_row_malformed py_float row.

(** ** The interpolator and the loop on rows as the parser returns them *)

(** [camera_position_calculator] hands the rows of [process_rinex_data]
    to the interpolator as they are.  The coordinates are of a type [C]
    here and [num] reads one as the number the arithmetic needs; on
    parser rows [C] is [cell] and [num] is [cell_number], which raises
    [TypeError] on text.  The hours are numbers in every row. *)
Section Coordinates.

Context {C : Type}.
Variable num : C -> result Q.

(** The body of the loop of [interpolate_coordinates] at one pair: the
    tests read the hours only, the branch taken reads the coordinates
    of the rows it uses. *)
Definition interpolate_pair_in (hour : Q) (before after : sample C)
  (off : offset) : option (result position) :=
  let time_before := hours_decimal before in
  let time_after := hours_decimal after in
  if Qltb time_before hour && Qltb hour time_after then
    let delta_time_total := time_after - time_before in
    let delta_time_partial := hour - time_before in
    let weight := delta_time_partial / delta_time_total in
    Some (e0 <- num (east before) ;;
          e1 <- num (east after) ;;
          n0 <- num (north before) ;;
          n1 <- num (north after) ;;
          z0 <- num (elevation before) ;;
          z1 <- num (elevation after) ;;
          Ok (e0 + (e1 - e0) * weight + east_offset off / 1000,
              n0 + (n1 - n0) * weight + north_offset off / 1000,
              z0 + (z1 - z0) * weight - elev_offset off / 1000))
  else if Qeq_bool time_before hour then
    Some (e0 <- num (east before) ;;
          n0 <- num (north before) ;;
          z0 <- num (elevation before) ;;
          Ok (e0 + east_offset off / 1000,
              n0 + north_offset off / 1000,
              z0 - elev_offset off / 1000))
  else None.

Fixpoint interpolate_from_in (hour : Q) (before : sample C)
  (rest : list (sample C)) (off : offset) : result position :=
  match rest with
  | [] => Raise ValueError
  | after :: later =>
      match interpolate_pair_in hour before after off with
      | Some r => r
      | None => interpolate_from_in hour after later off
      end
  end.

Definition interpolate_coordinates_in (hour : Q) (rinex_data : list (sample C))
  (off : offset) : result position :=
  match rinex_data with
  | [] => Raise ValueError
  | first :: rest => interpolate_from_in hour first rest off
  end.

Definition locate_image_in (log : capture_log) (rinex_data : list (sample C))
  (image_id : Z) : result position :=
  timestamp_index <- py_index (image_ids log) image_id ;;
  hour <- subscript (image_times log) timestamp_index ;;
  off <- subscript (offsets log) timestamp_index ;;
  interpolate_coordinates_in hour rinex_data off.

Definition camera_position_step_in (log : capture_log)
  (rinex_data : list (sample C)) (st : tally) (image : string * Z)
  : result tally :=
  let (image_file, image_id) := image in
  match locate_image_in log rinex_data image_id with
  | Ok p =>
      Ok (Tally (output_data st ++ [(image_file, p)])
                (S (matched_count st))
                (unmatched_images st))
  | Raise ValueError | Raise IndexError =>
      Ok (Tally (output_data st) (matched_count st)
                (unmatched_images st ++ [(image_file, image_id)]))
  | Raise e => Raise e
  end.

Fixpoint camera_position_loop_in (log : capture_log)
  (rinex_data : list (sample C)) (st : tally) (images : list (string * Z))
  : result tally :=
  match images with
  | [] => Ok st
  | image :: rest =>
      st' <- camera_position_step_in log rinex_data st image ;;
      camera_position_loop_in log rinex_data st' rest
  end.

End Coordinates.

(** ** [camera_position_calculator] *)

(** [s.endswith(suffix)]. *)
Fixpoint ends_with (s suffix : string) : bool :=
  if String.eqb s suffix then true
  else match s with
       | EmptyString => false
       | String _ s' => ends_with s' suffix
       end.

(** What the calculator finds in its directory: the names of the
    regular files in the order [os.listdir] gives them, and for a name
    the table [read_csv] returns with the arguments of
    [process_rinex_data] and with those of [process_timestamp_data].  A
    file that [read_csv] cannot read stands for the empty table: the
    exception is caught in the parser, which returns what it returns on
    no rows. *)
Record folder : Type := Folder {
  listing : list string;
  pos_table : string -> list (list cell);
  mrk_table : string -> list (list cell)
}.

(** [f.endswith((".JPG", ".jpg"))]. *)
Definition is_image (f : string) : bool :=
  ends_with f ".JPG" || ends_with f ".jpg".

(** The loop over [image_files] that fills [image_ids_from_files] and
    [valid_image_files], kept side by side here, and [invalid_files]. *)
Fixpoint extract_ids (py_int : string -> option Z) (image_files : list string)
  : result (list (string * Z) * list string) :=
  match image_files with
  | [] => Ok ([], [])
  | image_file :: rest =>
      image_id <- extract_image_id_from_filename py_int image_file ;;
      r <- extract_ids py_int rest ;;
      match image_id with
      | Some id => Ok ((image_file, id) :: fst r, snd r)
      | None => Ok (fst r, image_file :: snd r)
      end
  end.

(** The function up to the writing of the file.  [Ok None] is
    [return False]; [Ok (Some rows)] is [return True] with [rows] handed
    to [to_csv], whose own failure is not modelled; [Raise] is an
    exception that leaves the function.  What is printed is left
    out. *)
Definition camera_position_calculator (py_int : string -> option Z)
  (py_float : string -> option Q) (dir : folder)
  : result (option (list (string * position))) :=
  let image_files := filter is_image (listing dir) in
  match image_files with
  | [] => Ok None
  | _ :: _ =>
  ids <- extract_ids py_int image_files ;;
  let valid_image_files := fst ids in
  match valid_image_files with
  | [] => Ok None
  | _ :: _ =>
  match filter (fun f => ends_with f ".pos") (listing dir) with
  | [] => Ok None
  | rinex_file :: _ =>
  let rinex_data := process_rinex_data py_float (pos_table dir rinex_file) in
  match rinex_data with
  | [] => Ok None
  | _ :: _ =>
  match filter (fun f => ends_with f ".MRK") (listing dir) with
  | [] => Ok None
  | timestamp_file :: _ =>
  let '(times, ids_of_log, offs) :=
    process_timestamp_data py_float (mrk_table dir timestamp_file) in
  match times with
  | [] => Ok None
  | _ :: _ =>
  st <- camera_position_loop_in cell_number (CaptureLog times ids_of_log offs)
          rinex_data (Tally [] 0 []) valid_image_files ;;
  match output_data st with
  | [] => Ok None
  | _ :: _ => Ok (Some (output_data st))
  end
  end end end end end end.

(** The exit status the script leaves: 0 after [True], 1 after [False]
    and after an exception. *)
Definition exit_status {A : Type} (r : result (option A)) : Z :=
  match r with
  | Ok (Some _) => 0%Z
  | _ => 1%Z
  end.

(** ** More vocabulary *)

(** [hours[i] > hours[i-1]] for every adjacent pair. *)
Definition adjacent_lt (hs : list Q) : Prop :=
  forall k a b, pair_at hs k a b -> a < b.

(** The rows a run of the loop adds to [output_data], and the images
    it adds to [unmatched_images]. *)
Definition matched_rows (log : capture_log) (rinex_data : list (sample Q))
  (images : list (string * Z)) : list (string * position) :=
  flat_map (fun image =>
              match locate_image log rinex_data (snd image) with
              | Ok p => [(fst image, p)]
              | Raise _ => []
              end) images.

Definition unmatched_rows (log : capture_log) (rinex_data : list (sample Q))
  (images : list (string * Z)) : list (string * Z) :=
  filter (fun image =>
            match locate_image log rinex_data (snd image) with
            | Ok _ => false
            | Raise _ => true
            end) images.

(** One row before and after the correction: every column but the
    hours is as it was, and the hours are as they were or a day later. *)
Definition day_shift {C : Type} (s s' : sample C) : Prop :=
  total_seconds s' = total_seconds s /\
  east s' = east s /\ north s' = north s /\ elevation s' = elevation s /\
  (hours_decimal s' = hours_decimal s \/
   hours_decimal s' = hours_decimal s + 24).

(** What the trajectory parser makes of one row: the time text cut at
    [":"] gives three numbers, the seconds are [H*3600 + M*60 + S], the
    hours are the seconds over 3600, or a day more after the correction,
    and the coordinates are the cells of columns 24, 25 and 33. *)
Definition parsed_from (py_float : string -> option Q) (row : list cell)
  (s : sample cell) : Prop :=
  exists text h m sec,
    nth_error row 5 = Some (Str text) /\
    map py_float (split_on ":" text) = [Some h; Some m; Some sec] /\
    total_seconds s = h * 3600 + m * 60 + sec /\
    (hours_decimal s = total_seconds s / 3600 \/
     hours_decimal s = total_seconds s / 3600 + 24) /\
    nth_error row 24 = Some (east s) /\
    nth_error row 25 = Some (north s) /\
    nth_error row 33 = Some (elevation s).

(** The number at the head of an offset column. *)
Definition offset_number (py_float : string -> option Q) (row : list cell)
  (j : nat) (v : Q) : Prop :=
  exists text,
    nth_error row j = Some (Str text) /\
    py_float (hd EmptyString (split_on "," text)) = Some v.

(** What the capture-log parser makes of one row: the identifier is
    the cell of column 0, the east offset comes from column 4, the north
    offset from column 3 and the elevation offset from column 5. *)
Definition logged_from (py_float : string -> option Q) (row : list cell)
  (image_id : cell) (off : offset) : Prop :=
  nth_error row 0 = Some image_id /\
  offset_number py_float row 4 (east_offset off) /\
  offset_number py_float row 3 (north_offset off) /\
  offset_number py_float row 5 (elev_offset off).

(** Entry [k] of the capture log is the first that carries the
    identifier, with its hour and its offset. *)
Definition first_carrying (log : capture_log) (image_id : Z) (k : nat)
  (hour : Q) (off : offset) : Prop :=
  exists c,
    nth_error (image_ids log) k = Some c /\
    cell_eq_int c image_id = true /\
    (forall j c', (j < k)%nat -> nth_error (image_ids log) j = Some c' ->
       cell_eq_int c' image_id = false) /\
    nth_error (image_times log) k = Some hour /\
    nth_error (offsets log) k = Some off.

(** Every coordinate of the row is a number. *)
Definition numeric_row (s : sample cell) : Prop :=
  exists e n z, east s = Num e /\ north s = Num n /\ elevation s = Num z.

(** The image files that give an identifier, with it, in their order. *)
Definition identified (py_int : string -> option Z) (image_files : list string)
  : list (string * Z) :=
  flat_map (fun f =>
              match extract_image_id_from_filename py_int f with
              | Ok (Some id) => [(f, id)]
              | _ => []
              end) image_files.

(** The rows the loop appends, on rows as the parser returns them. *)
Definition matched_rows_in {C : Type} (num : C -> result Q) (log : capture_log)
  (rinex_data : list (sample C)) (images : list (string * Z))
  : list (string * position) :=
  flat_map (fun image =>
              match locate_image_in num log rinex_data (snd image) with
              | Ok p => [(fst image, p)]
              | Raise _ => []
              end) images.

(** The rows a run writes when it uses the trajectory file
    [rinex_file] and the capture log [timestamp_file]. *)
Definition expected_rows (py_int : string -> option Z)
  (py_float : string -> option Q) (dir : folder)
  (rinex_file timestamp_file : string) : list (string * position) :=
  let rinex_data := process_rinex_data py_float (pos_table dir rinex_file) in
  let '(times, ids, offs) :=
    process_timestamp_data py_float (mrk_table dir timestamp_file) in
  matched_rows_in cell_number (CaptureLog times ids offs) rinex_data
    (identified py_int (filter is_image (listing dir))).

(** A row of the trajectory with its coordinates as cells. *)
Definition as_cells (s : sample Q) : sample cell :=
  Sample (total_seconds s) (hours_decimal s)
         (Num (east s)) (Num (north s)) (Num (elevation s)).

(** ** Sample inputs *)

Definition zero_offset : offset := Offset 0 0 0.

(** Three rows an hour apart, climbing. *)
Definition climb_data : list (sample Q) :=
  [Sample 0 0 0 0 0; Sample 3600 1 10 20 30; Sample 7200 2 20 40 60].

(** Rows as parsed, with hours 23, 22, 21, 23, and the trajectory the
    parser makes of them, with hours 23, 46, 45, 47. *)
Definition late_dip_raw : list (sample Q) :=
  [Sample 82800 23 0 0 0; Sample 79200 22 10 10 10;
   Sample 75600 21 20 20 20; Sample 82800 23 40 40 40].

Definition late_dip_data : list (sample Q) := rinex_rollover late_dip_raw.

(** Hours 23, 1, 3, 2 as parsed; 23, 25, 27, 26 after the correction. *)
Definition late_swap_raw : list (sample Q) :=
  [Sample 82800 23 0 0 0; Sample 3600 1 10 10 10;
   Sample 10800 3 20 20 20; Sample 7200 2 30 30 30].

Definition late_swap_data : list (sample Q) := rinex_rollover late_swap_raw.

(** Hours 23, 1, 1 as parsed; 23, 25, 25 after the correction. *)
Definition twin_raw : list (sample Q) :=
  [Sample 82800 23 0 0 0; Sample 3600 1 10 10 10; Sample 3600 1 20 20 20].

Definition twin_data : list (sample Q) := rinex_rollover twin_raw.

(** A time field [30:00:00] followed by [01:00:00] and [02:00:00]:
    hours 30, 1, 2 as parsed; 30, 25, 26 after the correction. *)
Definition overlong_raw : list (sample Q) :=
  [Sample 108000 30 0 0 0; Sample 3600 1 10 10 10; Sample 7200 2 20 20 20].

Definition overlong_data : list (sample Q) := rinex_rollover overlong_raw.

(** Two rows at the same instant. *)
Definition same_instant_raw : list (sample Q) :=
  [Sample 18000 5 0 0 0; Sample 18000 5 1 1 1].

(** The rollover scenario of the specification: hours 23.8, 23.95, 0.05
    and 0.2 as parsed. *)
Definition midnight_raw : list (sample Q) :=
  [Sample 85680 (119 # 5) 0 0 0; Sample 86220 (479 # 20) 10 10 10;
   Sample 180 (1 # 20) 20 20 20; Sample 720 (1 # 5) 30 30 30].

(** A trajectory row of 34 columns: the time at 5, east at 24, north at
    25, elevation at 33, zeros elsewhere. *)
Definition rinex_line (hms e n z : cell) : list cell :=
  repeat (Num 0) 5 ++ [hms] ++ repeat (Num 0) 18 ++ [e; n]
    ++ repeat (Num 0) 7 ++ [z].

(** Two rows whose time fields are fine and whose east column holds the
    token [abc]: the whole column reaches the parser as text. *)
Definition east_text_table : list (list cell) :=
  [rinex_line (Str "10:00:00") (Str "12.5") (Num 1) (Num 2);
   rinex_line (Str "10:30:00") (Str "abc") (Num 3) (Num 4)].

(** Two rows, the second with the time field [10:xx:00]. *)
Definition bad_time_table : list (list cell) :=
  [rinex_line (Str "10:00:00") (Num 5) (Num 1) (Num 2);
   rinex_line (Str "10:xx:00") (Num 6) (Num 3) (Num 4)].

(** Two capture-log rows, the second with the east offset [x,E]. *)
Definition bad_offset_table : list (list cell) :=
  [[Num 1; Num 36000; Num 0; Str "10,N"; Str "20,E"; Str "30,V"];
   [Num 2; Num 36005; Num 0; Str "10,N"; Str "x,E"; Str "30,V"]].

(** A capture log in which the identifier 42 occurs at indices 1 and
    2, with different hours and offsets. *)
Definition twice_log : capture_log :=
  CaptureLog [1 # 2; 3 # 2; 1]
             [Num 7; Num 42; Num 42]
             [Offset 0 0 0; Offset 100 200 300; Offset 1000 2000 3000].

Definition empty_tally : tally := Tally [] 0 [].

(** A file whose time fields read 23:00:00, 22:00:00, 21:00:00 and
    23:00:00, and one that starts at 30:00:00. *)
Definition late_dip_table : list (list cell) :=
  [rinex_line (Str "23:00:00") (Num 0) (Num 0) (Num 0);
   rinex_line (Str "22:00:00") (Num 10) (Num 10) (Num 10);
   rinex_line (Str "21:00:00") (Num 20) (Num 20) (Num 20);
   rinex_line (Str "23:00:00") (Num 40) (Num 40) (Num 40)].

Definition overlong_table : list (list cell) :=
  [rinex_line (Str "30:00:00") (Num 0) (Num 0) (Num 0);
   rinex_line (Str "01:00:00") (Num 10) (Num 10) (Num 10);
   rinex_line (Str "02:00:00") (Num 20) (Num 20) (Num 20)].

(** A directory with three image files, one of them without an
    identifier, a trajectory of three rows an hour apart from 10:00:00
    and a capture log with the identifiers 1 and 2 at 10:30 and
    11:00. *)
Definition flight_table : list (list cell) :=
  [rinex_line (Str "10:00:00") (Num 0) (Num 0) (Num 0);
   rinex_line (Str "11:00:00") (Num 10) (Num 20) (Num 30);
   rinex_line (Str "12:00:00") (Num 20) (Num 40) (Num 60)].

Definition shots_table : list (list cell) :=
  [[Num 1; Num 37800; Num 0; Str "10,N"; Str "20,E"; Str "30,V"];
   [Num 2; Num 39600; Num 0; Str "10,N"; Str "20,E"; Str "30,V"]].

Definition flight_folder : folder :=
  Folder ["DJI_0001_0001.JPG"; "notes.txt"; "DJI_0001_0002.jpg";
          "track.pos"; "shots.MRK"; "cover.JPG"]%string
         (fun _ => flight_table) (fun _ => shots_table).

(** A directory with the trajectory whose east column is text and one
    capture at 10:15, between its two rows. *)
Definition east_text_folder : folder :=
  Folder ["DJI_0001_0001.JPG"; "track.pos"; "shots.MRK"]%string
         (fun _ => east_text_table)
         (fun _ => [[Num 1; Num 36900; Num 0; Str "10,N"; Str "20,E"; Str "30,V"]]).

(** A directory without a capture log. *)
Definition no_log_folder : folder :=
  Folder ["DJI_0001_0001.JPG"; "track.pos"]%string
         (fun _ => flight_table) (fun _ => shots_table).

(** [late_dip_data] in binary64: hours 23, 46, 45, 47. *)
Definition late_dip_f64 : list (entry float float) :=
  [Entry 82800 23 0 0 0; Entry 79200 46 10 10 10;
   Entry 75600 45 20 20 20; Entry 82800 47 40 40 40]%float.

(** The two rows of the midpoint scenario, with [numpy.float64] and
    with [numpy.int64] coordinates. *)
Definition midpoint_f64 (s0 t0 s1 t1 : float) : list (entry float float) :=
  [Entry s0 t0 0 0 0; Entry s1 t1 10 20 30]%float.

Definition midpoint_int64 (s0 t0 s1 t1 : float) : list (entry float Z) :=
  [Entry s0 t0 0 0 0; Entry s1 t1 10 20 30]%Z.

Definition midpoint (t0 t1 : float) : float := ((t0 + t1) / 2)%float.

(** The hour [n:00:00] as the parser computes it. *)
Definition whole_hour (n : nat) : float := float_of_int (Z.of_nat n).

Definition no_shift : float * float * float := (0, 0, 0)%float.

(** The blend with the product taken before the quotient:
    [c0 + (c1 - c0) * (hour - t0) / (t1 - t0)] read left to right. *)
Definition product_first (hour t0 t1 c0 c1 : float) : float :=
  (c0 + (c1 - c0) * (hour - t0) / (t1 - t0))%float.

(** [climb_data] in binary64. *)
Definition climb_f64 : list (entry float float) :=
  [Entry 0 0 0 0 0; Entry 3600 1 10 20 30; Entry 7200 2 20 40 60]%float.

(** A capture log with the one identifier 1, at 10:15. *)
Definition quarter_past_log : capture_log :=
  CaptureLog [41 # 4] [Num 1] [Offset 20 10 30].

(** * Properties *)

(** ** Comparisons *)

Lemma Qltb_lt (x y : Q) : Qltb x y = true <-> x < y.
Proof.
  unfold Qltb. rewrite negb_true_iff.
  split; intro H.
  - apply Qnot_le_lt. intro Hle. apply Qle_bool_iff in Hle. congruence.
  - destruct (Qle_bool y x) eqn:E; [|reflexivity].
    apply Qle_bool_iff in E. exfalso. apply (Qlt_not_le _ _ H E).
Qed.

Lemma Qltb_ge (x y : Q) : Qltb x y = false <-> y <= x.
Proof.
  unfold Qltb. rewrite negb_false_iff. apply Qle_bool_iff.
Qed.

Lemma Qeq_bool_false (x y : Q) : Qeq_bool x y = false <-> ~ x == y.
Proof.
  split.
  - intros H E. apply Qeq_bool_iff in E. congruence.
  - intro H. destruct (Qeq_bool x y) eqn:E; [|reflexivity].
    apply Qeq_bool_iff in E. contradiction.
Qed.

(** ** One pair of the interpolation loop *)

Lemma interpolate_pair_interior hour a b off :
  interior hour a b -> interpolate_pair hour a b off = Some (blend hour a b off).
Proof.
  intros [H1 H2]. unfold interpolate_pair.
  apply Qltb_lt in H1. apply Qltb_lt in H2. rewrite H1, H2. reflexivity.
Qed.

Lemma interpolate_pair_boundary hour a b off :
  boundary hour a -> interpolate_pair hour a b off = Some (unblended a off).
Proof.
  unfold boundary. intro H. unfold interpolate_pair.
  assert (E : Qltb (hours_decimal a) hour = false).
  { apply Qltb_ge. rewrite H. apply Qle_refl. }
  rewrite E. simpl. apply Qeq_bool_iff in H. rewrite H. reflexivity.
Qed.

Lemma interpolate_pair_none hour a b off :
  interpolate_pair hour a b off = None <->
  ~ interior hour a b /\ ~ boundary hour a.
Proof.
  unfold interpolate_pair, interior, boundary. split.
  - destruct (Qltb (hours_decimal a) hour) eqn:E1;
      destruct (Qltb hour (hours_decimal b)) eqn:E2; simpl;
      try discriminate;
      destruct (Qeq_bool (hours_decimal a) hour) eqn:E3; try discriminate;
      intros _; apply Qeq_bool_false in E3; split; try assumption;
      intros [H1 H2]; apply Qltb_lt in H1; apply Qltb_lt in H2; congruence.
  - intros [Hi Hb].
    destruct (Qltb (hours_decimal a) hour) eqn:E1;
      destruct (Qltb hour (hours_decimal b)) eqn:E2; simpl.
    + exfalso. apply Hi. split; apply Qltb_lt; assumption.
    + apply Qeq_bool_false in Hb. rewrite Hb. reflexivity.
    + apply Qeq_bool_false in Hb. rewrite Hb. reflexivity.
    + apply Qeq_bool_false in Hb. rewrite Hb. reflexivity.
Qed.

(** ** The scan *)

Lemma pair_at_cons {A : Type} (x : A) (l : list A) (k : nat) (a b : A) :
  pair_at (x :: l) (S k) a b <-> pair_at l k a b.
Proof. unfold pair_at. simpl. tauto. Qed.

Lemma scanned_tail hour x data k :
  scanned hour (x :: data) (S k) -> scanned hour data k.
Proof.
  intros H j a b Hj Hp. apply (H (S j) a b); [lia|].
  apply pair_at_cons. assumption.
Qed.

(** The scan returns at the pair it gets to, when that pair passes one
    of the two tests. *)
Lemma interpolate_from_at hour off p :
  forall rest first k a b,
    pair_at (first :: rest) k a b ->
    scanned hour (first :: rest) k ->
    interpolate_pair hour a b off = Some p ->
    interpolate_from hour first rest off = Ok p.
Proof.
  induction rest as [|second later IH]; intros first k a b Hp Hs Hm.
  - destruct Hp as [_ Hb]. destruct k; discriminate.
  - destruct k as [|k].
    + destruct Hp as [Ha Hb]. simpl in Ha, Hb.
      injection Ha as <-. injection Hb as <-.
      simpl. rewrite Hm. reflexivity.
    + simpl.
      assert (Hn : interpolate_pair hour first second off = None).
      { apply interpolate_pair_none.
        apply (Hs 0%nat first second); [lia|]. split; reflexivity. }
      rewrite Hn.
      apply (IH second k a b).
      * apply pair_at_cons in Hp. assumption.
      * apply scanned_tail in Hs. assumption.
      * assumption.
Qed.

Lemma interpolate_at hour data off k a b p :
  pair_at data k a b ->
  scanned hour data k ->
  interpolate_pair hour a b off = Some p ->
  interpolate_coordinates hour data off = Ok p.
Proof.
  destruct data as [|first rest]; intros Hp Hs Hm.
  - destruct Hp as [Ha _]. destruct k; discriminate.
  - simpl. eapply interpolate_from_at; eassumption.
Qed.

(** The scan raises exactly when every pair fails both tests, and what
    it raises is [ValueError]. *)
Lemma interpolate_from_raise hour off e :
  forall rest first,
    interpolate_from hour first rest off = Raise e <->
    e = ValueError /\
    forall k a b, pair_at (first :: rest) k a b ->
      ~ interior hour a b /\ ~ boundary hour a.
Proof.
  induction rest as [|second later IH]; intro first; simpl.
  - split.
    + intro H. injection H as <-. split; [reflexivity|].
      intros k a b [_ Hb]. destruct k; discriminate.
    + intros [-> _]. reflexivity.
  - destruct (interpolate_pair hour first second off) as [p|] eqn:E.
    + split; [discriminate|].
      intros [_ H]. exfalso.
      destruct (H 0%nat first second) as [Hi Hb]; [split; reflexivity|].
      assert (N : interpolate_pair hour first second off = None)
        by (apply interpolate_pair_none; tauto).
      congruence.
    + rewrite IH. split; intros [He H]; (split; [assumption|]).
      * intros k a b Hp. destruct k as [|k].
        -- destruct Hp as [Ha Hb]. simpl in Ha, Hb.
           injection Ha as <-. injection Hb as <-.
           apply interpolate_pair_none in E. assumption.
        -- apply pair_at_cons in Hp. apply (H k). assumption.
      * intros k a b Hp. apply (H (S k)). apply pair_at_cons. assumption.
Qed.

Lemma interpolate_raise hour data off e :
  interpolate_coordinates hour data off = Raise e <->
  e = ValueError /\
  forall k a b, pair_at data k a b -> ~ interior hour a b /\ ~ boundary hour a.
Proof.
  destruct data as [|first rest].
  - simpl. split.
    + intro H. injection H as <-. split; [reflexivity|].
      intros k a b [Ha _]. destruct k; discriminate.
    + intros [-> _]. reflexivity.
  - apply interpolate_from_raise.
Qed.

(** A successful scan returned at some pair it got to. *)
Lemma interpolate_from_ok hour off p :
  forall rest first,
    interpolate_from hour first rest off = Ok p ->
    exists k a b,
      pair_at (first :: rest) k a b /\ scanned hour (first :: rest) k /\
      interpolate_pair hour a b off = Some p.
Proof.
  induction rest as [|second later IH]; intro first; simpl; [discriminate|].
  destruct (interpolate_pair hour first second off) as [q|] eqn:E.
  - intro H. injection H as ->.
    exists 0%nat, first, second.
    split; [split; reflexivity|]. split; [|assumption].
    intros j a b Hj. lia.
  - intro H. destruct (IH second H) as (k & a & b & Hp & Hs & Hm).
    exists (S k), a, b. split; [|split].
    + apply pair_at_cons. assumption.
    + intros j a' b' Hj Hp'. destruct j as [|j].
      * destruct Hp' as [Ha Hb]. simpl in Ha, Hb.
        injection Ha as <-. injection Hb as <-.
        apply interpolate_pair_none in E. assumption.
      * apply pair_at_cons in Hp'. apply (Hs j); [lia|assumption].
    + assumption.
Qed.

Lemma interpolate_ok hour data off p :
  interpolate_coordinates hour data off = Ok p ->
  exists k a b,
    pair_at data k a b /\ scanned hour data k /\
    interpolate_pair hour a b off = Some p.
Proof.
  destruct data as [|first rest]; simpl; [discriminate|].
  apply interpolate_from_ok.
Qed.

Lemma interpolate_pair_some hour a b off p :
  interpolate_pair hour a b off = Some p ->
  (interior hour a b /\ p = blend hour a b off) \/
  (boundary hour a /\ p = unblended a off).
Proof.
  intro H.
  destruct (interpolate_pair hour a b off) as [q|] eqn:E; [|discriminate].
  injection H as ->.
  unfold interpolate_pair in E.
  destruct (Qltb (hours_decimal a) hour && Qltb hour (hours_decimal b)) eqn:E1.
  - left. apply andb_true_iff in E1. destruct E1 as [H1 H2].
    apply Qltb_lt in H1. apply Qltb_lt in H2.
    split; [split; assumption|]. injection E as <-. reflexivity.
  - destruct (Qeq_bool (hours_decimal a) hour) eqn:E2; [|discriminate].
    right. apply Qeq_bool_iff in E2. split; [assumption|].
    injection E as <-. reflexivity.
Qed.

(** ** Sequences of hours *)

Lemma pair_at_hours {C : Type} (data : list (sample C)) k a b :
  pair_at data k a b ->
  pair_at (hours_of data) k (hours_decimal a) (hours_decimal b).
Proof.
  intros [Ha Hb]. unfold hours_of.
  split; apply map_nth_error; assumption.
Qed.

Lemma adjacent_ge_chain hs :
  adjacent_ge hs ->
  forall d i x y,
    nth_error hs i = Some x -> nth_error hs (i + d) = Some y -> x <= y.
Proof.
  intros Hm. induction d as [|d IH]; intros i x y Hx Hy.
  - rewrite Nat.add_0_r in Hy. rewrite Hx in Hy. injection Hy as <-.
    apply Qle_refl.
  - replace (i + S d)%nat with (S (i + d)) in Hy by lia.
    destruct (nth_error hs (i + d)) as [z|] eqn:Ez.
    + apply Qle_trans with z.
      * apply (IH i); assumption.
      * apply (Hm (i + d)%nat). split; assumption.
    + exfalso. apply nth_error_None in Ez.
      assert (Hlt : (S (i + d) < List.length hs)%nat).
      { apply nth_error_Some. rewrite Hy. discriminate. }
      lia.
Qed.

Lemma hours_chain (data : list (sample Q)) i j a b :
  adjacent_ge (hours_of data) -> (i <= j)%nat ->
  nth_error data i = Some a -> nth_error data j = Some b ->
  hours_decimal a <= hours_decimal b.
Proof.
  intros Hm Hij Ha Hb.
  apply (adjacent_ge_chain _ Hm (j - i) i).
  - unfold hours_of. apply map_nth_error. assumption.
  - replace (i + (j - i))%nat with j by lia.
    unfold hours_of. apply map_nth_error. assumption.
Qed.

(** ** PositionInterpolator: the strict interior case *)

Section ArithmeticScan.

Context {T C : Type}.
Variable ops : arithmetic T C.

Lemma interpolate_pair_on_interior hour a b off :
  interior_on ops hour a b ->
  interpolate_pair_on ops hour a b off = Some (blend_on ops hour a b off).
Proof.
  intros [H1 H2]. destruct off as [[eo no] zo].
  unfold interpolate_pair_on. rewrite H1, H2. reflexivity.
Qed.

Lemma interpolate_pair_on_none hour a b off :
  ~ interior_on ops hour a b -> ~ boundary_on ops hour a ->
  interpolate_pair_on ops hour a b off = None.
Proof.
  unfold interior_on, boundary_on. intros Hi Hb. destruct off as [[eo no] zo].
  unfold interpolate_pair_on.
  destruct (num_lt ops (entry_hours a) hour) eqn:E1;
    destruct (num_lt ops hour (entry_hours b)) eqn:E2; simpl;
    try (exfalso; apply Hi; split; reflexivity);
    destruct (num_eq ops (entry_hours a) hour); try reflexivity;
    exfalso; apply Hb; reflexivity.
Qed.

(** The scan returns the blend of the first pair that passes the
    interior test, when no pair before it passes either test. *)
Lemma interpolate_from_on_at hour off :
  forall rest first k a b,
    pair_at (first :: rest) k a b ->
    interior_on ops hour a b ->
    (forall j a' b', (j < k)%nat -> pair_at (first :: rest) j a' b' ->
       ~ interior_on ops hour a' b' /\ ~ boundary_on ops hour a') ->
    interpolate_from_on ops hour first rest off
      = Ok (blend_on ops hour a b off).
Proof.
  induction rest as [|second later IH]; intros first k a b Hp Hi Hs.
  - destruct Hp as [_ Hb]. destruct k; discriminate.
  - destruct k as [|k].
    + destruct Hp as [Ha Hb]. simpl in Ha, Hb.
      injection Ha as <-. injection Hb as <-.
      simpl. rewrite (interpolate_pair_on_interior _ _ _ _ Hi). reflexivity.
    + simpl.
      destruct (Hs 0%nat first second) as [Hni Hnb];
        [lia|split; reflexivity|].
      rewrite (interpolate_pair_on_none _ _ _ _ Hni Hnb).
      apply (IH second k a b).
      * apply pair_at_cons in Hp. assumption.
      * assumption.
      * intros j a' b' Hj Hp'. apply (Hs (S j) a' b'); [lia|].
        apply pair_at_cons. assumption.
Qed.

End ArithmeticScan.

(** On exact rationals the scan is [interpolate_coordinates]. *)
Lemma interpolate_on_rational hour data off :
  interpolate_coordinates_on rational hour (map as_entry data) (as_triple off)
  = interpolate_coordinates hour data off.
Proof.
  destruct data as [|first rest]; [reflexivity|]. simpl.
  revert first. induction rest as [|second later IH]; intro first;
    [reflexivity|].
  simpl. rewrite IH.
  unfold interpolate_pair. simpl.
  destruct (Qltb (hours_decimal first) hour && Qltb hour (hours_decimal second));
    [reflexivity|].
  destruct (Qeq_bool (hours_decimal first) hour); reflexivity.
Qed.

(** C1, as the code has it: when the pair [(i-1, i)] is the first with
    [time[i-1] < query_hour < time[i]] and no pair before it has
    [time[j-1] == query_hour], the result is, in each coordinate,
    [sample[i-1].coord + (sample[i].coord - sample[i-1].coord) * weight]
    with [weight = (query_hour - time[i-1]) / (time[i] - time[i-1])]
    computed first, then the offset, every operation being that of the
    arithmetic the cells carry.  For the two rows [(t0, 0, 0, 0)] and
    [(t1, 10, 20, 30)], zero offset and the query [q = (t0 + t1) / 2]
    as binary64 computes it, the result is [(5, 10, 15)] when
    [t0 < q < t1] holds of the computed [q] and the computed weight is
    [0.5], with floating or integer coordinate cells; it is so for any
    two consecutive whole hours of two days. *)
Theorem interior_case_expression :
  (forall (T C : Type) (ops : arithmetic T C) hour data off k a b,
      pair_at data k a b ->
      interior_on ops hour a b ->
      (forall j a' b', (j < k)%nat -> pair_at data j a' b' ->
         ~ interior_on ops hour a' b') ->
      (forall j a' b', (j < k)%nat -> pair_at data j a' b' ->
         ~ boundary_on ops hour a') ->
      interpolate_coordinates_on ops hour data off
        = Ok (blend_on ops hour a b off))
  /\
  (forall s0 t0 s1 t1,
      PrimFloat.ltb t0 (midpoint t0 t1) = true ->
      PrimFloat.ltb (midpoint t0 t1) t1 = true ->
      ((midpoint t0 t1 - t0) / (t1 - t0))%float = 0.5%float ->
      interpolate_coordinates_on binary64 (midpoint t0 t1)
        (midpoint_f64 s0 t0 s1 t1) no_shift = Ok (5, 10, 15)%float /\
      interpolate_coordinates_on int64_cells (midpoint t0 t1)
        (midpoint_int64 s0 t0 s1 t1) no_shift = Ok (5, 10, 15)%float)
  /\
  (forall n s0 s1,
      (n < 48)%nat ->
      interpolate_coordinates_on binary64
        (midpoint (whole_hour n) (whole_hour (S n)))
        (midpoint_f64 s0 (whole_hour n) s1 (whole_hour (S n))) no_shift
        = Ok (5, 10, 15)%float).
Proof.
  split; [|split].
  - intros T C ops hour data off k a b Hp Hi Hfirst Hnob.
    destruct data as [|first rest].
    { destruct Hp as [Ha _]. destruct k; discriminate. }
    simpl. apply (interpolate_from_on_at ops hour off rest first k a b);
      [assumption|assumption|].
    intros j a' b' Hj Hp'. split; [eapply Hfirst|eapply Hnob]; eassumption.
  - intros s0 t0 s1 t1 H1 H2 Hw.
    unfold midpoint_f64, midpoint_int64, no_shift.
    cbn [interpolate_coordinates_on interpolate_from_on].
    unfold interpolate_pair_on.
    cbn [num_lt num_sub num_div entry_hours binary64 int64_cells].
    rewrite H1, H2. cbn [andb]. rewrite Hw.
    split; vm_compute; reflexivity.
  - intros n s0 s1 Hn.
    do 48 (destruct n as [|n]; [vm_compute; reflexivity|]).
    lia.
Qed.

Lemma interior_case_expression_witness :
  interpolate_coordinates_on binary64 1.5%float climb_f64 (500, 250, 125)%float
    = Ok (15.5, 30.25, 44.875)%float /\
  (interpolate_coordinates_on binary64 10.5%float
     (midpoint_f64 36000 10 39600 11) no_shift = Ok (5, 10, 15)%float /\
   interpolate_coordinates_on int64_cells 10.5%float
     (midpoint_int64 36000 10 39600 11) no_shift = Ok (5, 10, 15)%float) /\
  interpolate_coordinates_on binary64 23.5%float
    (midpoint_f64 82800 23 86400 24) no_shift = Ok (5, 10, 15)%float.
Proof.
  split; [|split].
  - apply (proj1 interior_case_expression float float binary64 1.5%float
             climb_f64 (500, 250, 125)%float 1%nat
             (Entry 3600 1 10 20 30)%float (Entry 7200 2 20 40 60)%float).
    + split; reflexivity.
    + split; reflexivity.
    + intros j a' b' Hj [Ha Hb].
      destruct j as [|j]; [|lia].
      injection Ha as <-. injection Hb as <-.
      intros [_ H]. discriminate H.
    + intros j a' b' Hj [Ha Hb].
      destruct j as [|j]; [|lia].
      injection Ha as <-.
      intro H. discriminate H.
  - apply (proj1 (proj2 interior_case_expression) 36000 10 39600 11)%float;
      reflexivity.
  - apply (proj2 (proj2 interior_case_expression) 23%nat 82800 86400)%float.
    lia.
Defined.

(** C1 as it is worded fails in binary64, the arithmetic of the code.
    On [late_dip_f64], a trajectory the parser returns, at hour 46 the
    pair of rows 2 and 3 (hours 45 and 47) is the first with the query
    strictly inside and its blend is 30 in each coordinate, but the
    scan returns row 1 as it is, 10 in each coordinate, because its
    hour equals the query.  For [t0 = 1] and [t1 = 1 + 2^-52] the
    computed midpoint is [t0] and the result is [(0, 0, 0)]; for
    [t0 = 3 + 2^-51] and [t1 = 3 + 2^-50] it is [t1] and the call
    raises; for the floats nearest 0.1 and 0.2 the query is strictly
    inside and the east coordinate is [5 + 2^-50].  Between rows at
    hours 8 and 11 with coordinates 0 and 10 the code returns at 8.25 a
    value one unit in the last place below
    [0 + (10 - 0) * (8.25 - 8) / (11 - 8)] taken left to right. *)
Lemma interior_case_counterexample :
  (hours_of late_dip_data = [23; 22 + 24; 21 + 24; 23 + 24] /\
   map entry_hours late_dip_f64 = [23; 46; 45; 47]%float /\
   pair_at late_dip_f64 2 (Entry 75600 45 20 20 20)%float
                          (Entry 82800 47 40 40 40)%float /\
   interior_on binary64 46%float (Entry 75600 45 20 20 20)%float
                                 (Entry 82800 47 40 40 40)%float /\
   (forall j a b, (j < 2)%nat -> pair_at late_dip_f64 j a b ->
      ~ interior_on binary64 46%float a b) /\
   blend_on binary64 46%float (Entry 75600 45 20 20 20)%float
     (Entry 82800 47 40 40 40)%float no_shift = (30, 30, 30)%float /\
   interpolate_coordinates_on binary64 46%float late_dip_f64 no_shift
     = Ok (10, 10, 10)%float)
  /\
  (PrimFloat.ltb 1 0x1.0000000000001p+0 = true /\
   midpoint 1 0x1.0000000000001p+0 = 1%float /\
   interpolate_coordinates_on binary64 (midpoint 1 0x1.0000000000001p+0)
     (midpoint_f64 0 1 0 0x1.0000000000001p+0) no_shift = Ok (0, 0, 0)%float)
  /\
  (PrimFloat.ltb 0x1.8000000000001p+1 0x1.8000000000002p+1 = true /\
   midpoint 0x1.8000000000001p+1 0x1.8000000000002p+1
     = 0x1.8000000000002p+1%float /\
   interpolate_coordinates_on binary64
     (midpoint 0x1.8000000000001p+1 0x1.8000000000002p+1)
     (midpoint_f64 0 0x1.8000000000001p+1 0 0x1.8000000000002p+1) no_shift
     = Raise ValueError)
  /\
  (interior_on binary64 (midpoint 0x1.999999999999ap-4 0x1.999999999999ap-3)
     (Entry 360 0x1.999999999999ap-4 0 0 0)%float
     (Entry 720 0x1.999999999999ap-3 10 20 30)%float /\
   interpolate_coordinates_on binary64
     (midpoint 0x1.999999999999ap-4 0x1.999999999999ap-3)
     (midpoint_f64 360 0x1.999999999999ap-4 720 0x1.999999999999ap-3) no_shift
     = Ok (0x1.4000000000001p+2, 0x1.4000000000001p+3,
           0x1.e000000000002p+3)%float /\
   PrimFloat.eqb 0x1.4000000000001p+2 5 = false)
  /\
  (interpolate_coordinates_on binary64 8.25%float
     [Entry 28800 8 0 0 0; Entry 39600 11 10 10 10]%float no_shift
     = Ok (0x1.aaaaaaaaaaaaap-1, 0x1.aaaaaaaaaaaaap-1,
           0x1.aaaaaaaaaaaaap-1)%float /\
   product_first 8.25 8 11 0 10 = 0x1.aaaaaaaaaaaabp-1%float)
  /\
  ~ (forall s0 t0 s1 t1,
       PrimFloat.ltb t0 t1 = true ->
       interpolate_coordinates_on binary64 (midpoint t0 t1)
         (midpoint_f64 s0 t0 s1 t1) no_shift = Ok (5, 10, 15)%float).
Proof.
  split; [|split; [|split; [|split; [|split]]]].
  - split; [reflexivity|]. split; [reflexivity|].
    split; [split; reflexivity|].
    split; [split; reflexivity|].
    split; [|split; reflexivity].
    intros j a b Hj [Ha Hb]. destruct j as [|[|j]]; [| |lia];
      injection Ha as <-; injection Hb as <-;
      intros [H1 H2]; (discriminate H1 || discriminate H2).
  - repeat split; reflexivity.
  - repeat split; reflexivity.
  - repeat split; reflexivity.
  - repeat split; reflexivity.
  - intro H.
    specialize (H 0 1 0 0x1.0000000000001p+0 eq_refl)%float.
    apply (f_equal (fun r => match r with
                             | Ok (e, _, _) => PrimFloat.eqb e 5
                             | Raise _ => false
                             end)) in H.
    vm_compute in H. discriminate H.
Qed.

(** ** PositionInterpolator: out of range *)

(** C2, as the code has it: the call raises, and then raises
    [ValueError], exactly when no pair [(i-1, i)] has
    [time[i-1] < query_hour < time[i]] or [time[i-1] == query_hour].
    When the hours of the trajectory never decrease, it raises for every
    query before the first hour, and for a query equal to the last hour
    that no earlier row has. *)
Theorem range_error_exactly :
  (forall hour data off,
      interpolate_coordinates hour data off = Raise ValueError <->
      forall k a b, pair_at data k a b ->
        ~ interior hour a b /\ ~ boundary hour a)
  /\
  (forall hour data off e,
      interpolate_coordinates hour data off = Raise e -> e = ValueError)
  /\
  (forall hour data off first,
      nth_error data 0 = Some first ->
      adjacent_ge (hours_of data) ->
      hour < hours_decimal first ->
      interpolate_coordinates hour data off = Raise ValueError)
  /\
  (forall hour data off n last,
      List.length data = S n ->
      nth_error data n = Some last ->
      hours_decimal last == hour ->
      adjacent_ge (hours_of data) ->
      (forall j a, (j < n)%nat -> nth_error data j = Some a ->
         ~ hours_decimal a == hour) ->
      interpolate_coordinates hour data off = Raise ValueError).
Proof.
  split; [|split; [|split]].
  - intros hour data off. rewrite interpolate_raise. tauto.
  - intros hour data off e H. apply interpolate_raise in H. tauto.
  - intros hour data off first Hf Hm Hlt.
    apply interpolate_raise. split; [reflexivity|].
    intros k a b [Ha Hb].
    assert (H0 : hours_decimal first <= hours_decimal a).
    { apply (hours_chain data 0 k); [assumption|lia|assumption|assumption]. }
    unfold interior, boundary. split; lra.
  - intros hour data off n last Hlen Hl Heq Hm Hne.
    apply interpolate_raise. split; [reflexivity|].
    intros k a b [Ha Hb].
    assert (Hk : (S k < List.length data)%nat).
    { apply nth_error_Some. rewrite Hb. discriminate. }
    assert (Hb' : hours_decimal b <= hours_decimal last).
    { apply (hours_chain data (S k) n); [assumption|lia|assumption|assumption]. }
    unfold interior, boundary. split.
    + lra.
    + apply (Hne k a); [lia|assumption].
Qed.

Lemma range_error_exactly_witness :
  interpolate_coordinates (-1) climb_data zero_offset = Raise ValueError /\
  interpolate_coordinates 2 climb_data zero_offset = Raise ValueError.
Proof.
  assert (Hm : adjacent_ge (hours_of climb_data)).
  { intros k a b [Ha Hb].
    destruct k as [|[|[|k]]]; simpl in Ha, Hb; try discriminate;
      injection Ha as <-; injection Hb as <-; discriminate. }
  split.
  - apply (proj1 (proj2 (proj2 range_error_exactly)) (-1) climb_data zero_offset
             (Sample 0 0 0 0 0)).
    + reflexivity.
    + exact Hm.
    + reflexivity.
  - apply (proj2 (proj2 (proj2 range_error_exactly)) 2 climb_data zero_offset
             2%nat (Sample 7200 2 20 40 60)).
    + reflexivity.
    + reflexivity.
    + reflexivity.
    + exact Hm.
    + intros j a Hj Ha.
      destruct j as [|[|j]]; simpl in Ha; try lia;
        injection Ha as <-; simpl; intro H; discriminate H.
Defined.

(** C2 as it is worded fails on trajectories the parser returns.  On
    [overlong_data] (hours 30, 25, 26) the query 25.5 is before the
    first hour and a position is returned.  On [late_swap_data] (hours
    23, 25, 27, 26) and on [twin_data] (hours 23, 25, 25) the query is
    the last hour and a position is returned: a blend in the first, row
    1 in the second. *)
Lemma range_error_counterexample :
  (hours_of overlong_data = [30; 1 + 24; 2 + 24] /\
   (51 # 2) < 30 /\
   interpolate_coordinates (51 # 2) overlong_data zero_offset
     = Ok (blend (51 # 2) (Sample 3600 (1 + 24) 10 10 10)
                          (Sample 7200 (2 + 24) 20 20 20) zero_offset) /\
   interpolate_coordinates (51 # 2) overlong_data zero_offset <> Raise ValueError)
  /\
  (hours_of late_swap_data = [23; 1 + 24; 3 + 24; 2 + 24] /\
   interpolate_coordinates 26 late_swap_data zero_offset
     = Ok (blend 26 (Sample 3600 (1 + 24) 10 10 10)
                    (Sample 10800 (3 + 24) 20 20 20) zero_offset) /\
   interpolate_coordinates 26 late_swap_data zero_offset <> Raise ValueError)
  /\
  (hours_of twin_data = [23; 1 + 24; 1 + 24] /\
   interpolate_coordinates 25 twin_data zero_offset
     = Ok (unblended (Sample 3600 (1 + 24) 10 10 10) zero_offset) /\
   interpolate_coordinates 25 twin_data zero_offset <> Raise ValueError).
Proof.
  repeat split; try reflexivity; discriminate.
Qed.

(** ** PositionInterpolator: the exact lower boundary *)

(** C5: when [query_hour] equals [time[i-1]] for a pair [(i-1, i)] that
    the scan gets to (no pair before it passed the interior test or the
    boundary test), the result is the position of row [i-1] itself with
    the offset applied; row [i] and the weight play no part.  When only
    the interior test is known to fail before that pair, the result is
    the unblended position of the first row of a pair whose hour equals
    the query. *)
Theorem boundary_case_exact :
  (forall hour data off k a b,
      pair_at data k a b ->
      boundary hour a ->
      scanned hour data k ->
      interpolate_coordinates hour data off
        = Ok (east a + east_offset off / 1000,
              north a + north_offset off / 1000,
              elevation a - elev_offset off / 1000))
  /\
  (forall hour data off k a b,
      pair_at data k a b ->
      boundary hour a ->
      (forall j a' b', (j < k)%nat -> pair_at data j a' b' -> ~ interior hour a' b') ->
      exists k0 a0 b0,
        (k0 <= k)%nat /\ pair_at data k0 a0 b0 /\ boundary hour a0 /\
        (forall j a' b', (j < k0)%nat -> pair_at data j a' b' -> ~ boundary hour a') /\
        interpolate_coordinates hour data off
          = Ok (east a0 + east_offset off / 1000,
                north a0 + north_offset off / 1000,
                elevation a0 - elev_offset off / 1000)).
Proof.
  split.
  - intros hour data off k a b Hp Hb Hs.
    apply (interpolate_at hour data off k a b); [assumption|assumption|].
    apply interpolate_pair_boundary. assumption.
  - intros hour data off k a b Hp Hb Hfirst.
    destruct (interpolate_coordinates hour data off) as [p|e] eqn:E.
    + destruct (interpolate_ok _ _ _ _ E) as (k0 & a0 & b0 & Hp0 & Hs0 & Hm0).
      assert (Hle : (k0 <= k)%nat).
      { destruct (Nat.le_gt_cases k0 k) as [H|H]; [assumption|].
        exfalso. destruct (Hs0 k a b H Hp) as [_ Hnb]. contradiction. }
      destruct (interpolate_pair_some _ _ _ _ _ Hm0) as [[Hi0 _]|[Hb0 ->]].
      * exfalso. destruct (Nat.eq_dec k0 k) as [->|Hne].
        -- destruct Hp as [Ha _]. destruct Hp0 as [Ha0 _].
           rewrite Ha in Ha0. injection Ha0 as <-.
           destruct Hi0 as [Hlt _]. unfold boundary in Hb. lra.
        -- apply (Hfirst k0 a0 b0); [lia|assumption|assumption].
      * exists k0, a0, b0.
        split; [assumption|]. split; [assumption|]. split; [assumption|].
        split; [|reflexivity].
        intros j a' b' Hj Hp'. apply (Hs0 j a' b' Hj Hp').
    + exfalso. apply interpolate_raise in E. destruct E as [_ E].
      destruct (E k a b Hp) as [_ Hnb]. contradiction.
Qed.

Lemma boundary_case_exact_witness :
  interpolate_coordinates 1 climb_data (Offset 100 200 300)
    = Ok (10 + 100 / 1000, 20 + 200 / 1000, 30 - 300 / 1000).
Proof.
  apply (proj1 boundary_case_exact 1 climb_data (Offset 100 200 300) 1%nat
           (Sample 3600 1 10 20 30) (Sample 7200 2 20 40 60)).
  - split; reflexivity.
  - reflexivity.
  - intros j a b Hj [Ha Hb].
    destruct j as [|j]; [|lia].
    injection Ha as <-. injection Hb as <-.
    unfold interior, boundary; simpl.
    split; [intros [_ H]|intro H]; discriminate H.
Defined.

(** ** PositionInterpolator: the offset *)

(** C6: a successful call returned at a pair in one of the two cases,
    and in both the result is the position before the offset (the blend,
    or the row itself) with [east_mm / 1000] and [north_mm / 1000] added
    and [elev_mm / 1000] subtracted, whatever the offset.  A row at
    [(0, 0, 0)] matched exactly with the offset [(1000, 2000, 3000)]
    gives [(1, 2, -3)]. *)
Theorem offset_sign_law :
  (forall hour data off p,
      interpolate_coordinates hour data off = Ok p ->
      exists k a b base,
        pair_at data k a b /\
        ((interior hour a b /\ base = lerp hour a b) \/
         (boundary hour a /\ base = position_of a)) /\
        forall off',
          interpolate_coordinates hour data off'
            = Ok (fst (fst base) + east_offset off' / 1000,
                  snd (fst base) + north_offset off' / 1000,
                  snd base - elev_offset off' / 1000))
  /\
  (forall hour s t after rest,
      t == hour ->
      exists p,
        interpolate_coordinates hour (Sample s t 0 0 0 :: after :: rest)
          (Offset 1000 2000 3000) = Ok p /\
        position_eq p (1, 2, -3)).
Proof.
  split.
  - intros hour data off p H.
    destruct (interpolate_ok _ _ _ _ H) as (k & a & b & Hp & Hs & Hm).
    destruct (interpolate_pair_some _ _ _ _ _ Hm) as [[Hi _]|[Hb _]].
    + exists k, a, b, (lerp hour a b).
      split; [assumption|]. split; [left; split; [assumption|reflexivity]|].
      intro off'. apply (interpolate_at hour data off' k a b); try assumption.
      apply interpolate_pair_interior. assumption.
    + exists k, a, b, (position_of a).
      split; [assumption|]. split; [right; split; [assumption|reflexivity]|].
      intro off'. apply (interpolate_at hour data off' k a b); try assumption.
      apply interpolate_pair_boundary. assumption.
  - intros hour s t after rest Ht.
    eexists. split.
    + simpl. rewrite interpolate_pair_boundary by exact Ht. reflexivity.
    + simpl. repeat split; reflexivity.
Qed.

Lemma offset_sign_law_witness :
  exists k a b base,
    pair_at climb_data k a b /\
    ((interior (3 # 2) a b /\ base = lerp (3 # 2) a b) \/
     (boundary (3 # 2) a /\ base = position_of a)) /\
    forall off',
      interpolate_coordinates (3 # 2) climb_data off'
        = Ok (fst (fst base) + east_offset off' / 1000,
              snd (fst base) + north_offset off' / 1000,
              snd base - elev_offset off' / 1000).
Proof.
  apply (proj1 offset_sign_law (3 # 2) climb_data zero_offset
           (blend (3 # 2) (Sample 3600 1 10 20 30) (Sample 7200 2 20 40 60)
              zero_offset)).
  reflexivity.
Defined.

(** ** The correction, by index *)

Lemma find_seq_shift (f g : nat -> bool) :
  (forall t, (1 <= t)%nat -> f (S t) = g t) ->
  forall n a, (1 <= a)%nat ->
    find f (seq (S a) n) = option_map S (find g (seq a n)).
Proof.
  intros Hfg. induction n as [|n IH]; intros a Ha; simpl; [reflexivity|].
  rewrite (Hfg a Ha). destruct (g a); [reflexivity|].
  apply IH. lia.
Qed.

Lemma rollover_index_cons trigger p c tl :
  rollover_index trigger (p :: c :: tl) =
  if trigger c p then Some 1%nat
  else option_map S (rollover_index trigger (c :: tl)).
Proof.
  unfold rollover_index.
  change (List.length (p :: c :: tl) - 1)%nat with (S (List.length tl)).
  change (List.length (c :: tl) - 1)%nat with (List.length tl - 0)%nat.
  rewrite Nat.sub_0_r.
  change (seq 1 (S (List.length tl))) with (1%nat :: seq 2 (List.length tl)).
  cbn [find]. change (nth 1 (p :: c :: tl) 0) with c.
  change (nth (1 - 1) (p :: c :: tl) 0) with p.
  destruct (trigger c p); [reflexivity|].
  apply find_seq_shift; [|lia].
  intros t Ht. destruct t as [|t]; [lia|].
  cbn [Nat.sub nth]. rewrite Nat.sub_0_r. reflexivity.
Qed.

Lemma rollover_index_short trigger p : rollover_index trigger [p] = None.
Proof. reflexivity. Qed.

Lemma unwrap_spec_cons trigger p c tl :
  unwrap_spec trigger (p :: c :: tl) =
  if trigger c p then p :: map (fun h => h + 24) (c :: tl)
  else p :: unwrap_spec trigger (c :: tl).
Proof.
  unfold unwrap_spec. rewrite rollover_index_cons.
  destruct (trigger c p); [reflexivity|].
  destruct (rollover_index trigger (c :: tl)) as [t|]; reflexivity.
Qed.

Lemma Qltb_diff (c p : Q) : Qltb (c - p) 0 = Qltb c p.
Proof.
  destruct (Qltb c p) eqn:E.
  - apply Qltb_lt. apply Qltb_lt in E. lra.
  - apply Qltb_ge. apply Qltb_ge in E. lra.
Qed.

Lemma Qle_bool_diff (c p : Q) : Qle_bool (c - p) 0 = Qle_bool c p.
Proof.
  destruct (Qle_bool c p) eqn:E.
  - apply Qle_bool_iff. apply Qle_bool_iff in E. lra.
  - destruct (Qle_bool (c - p) 0) eqn:E'; [|reflexivity].
    apply Qle_bool_iff in E'.
    assert (H : Qle_bool c p = true) by (apply Qle_bool_iff; lra).
    congruence.
Qed.

Lemma hours_of_add_day {C : Type} (l : list (sample C)) :
  hours_of (map add_day l) = map (fun h => h + 24) (hours_of l).
Proof.
  unfold hours_of. rewrite !map_map. reflexivity.
Qed.

Lemma rinex_rollover_from_spec {C : Type} :
  forall (rest : list (sample C)) (past : sample C),
    hours_decimal past :: hours_of (rinex_rollover_from past rest)
    = unwrap_spec at_or_below (hours_decimal past :: hours_of rest).
Proof.
  induction rest as [|current later IH]; intro past; [reflexivity|].
  cbn [hours_of map]. rewrite unwrap_spec_cons.
  cbn [rinex_rollover_from]. unfold at_or_below at 1.
  rewrite Qle_bool_diff.
  destruct (Qle_bool (hours_decimal current) (hours_decimal past)).
  - change (map hours_decimal (map add_day (current :: later)))
      with (hours_of (map add_day (current :: later))).
    rewrite hours_of_add_day. reflexivity.
  - cbn [map]. f_equal. apply IH.
Qed.

Lemma rinex_rollover_spec {C : Type} (l : list (sample C)) :
  hours_of (rinex_rollover l) = unwrap_spec at_or_below (hours_of l).
Proof.
  destruct l as [|first rest]; [reflexivity|].
  apply rinex_rollover_from_spec.
Qed.

Lemma timestamp_rollover_from_spec :
  forall (rest : list Q) (past : Q),
    past :: timestamp_rollover_from past rest = unwrap_spec below (past :: rest).
Proof.
  induction rest as [|current later IH]; intro past; [reflexivity|].
  rewrite unwrap_spec_cons. cbn [timestamp_rollover_from].
  unfold below at 1. rewrite Qltb_diff.
  destruct (Qltb current past); [reflexivity|].
  f_equal. apply IH.
Qed.

Lemma timestamp_rollover_spec (hs : list Q) :
  timestamp_rollover hs = unwrap_spec below hs.
Proof.
  destruct hs as [|first rest]; [reflexivity|].
  apply timestamp_rollover_from_spec.
Qed.

Lemma unwrap_spec_ext (f g : Q -> Q -> bool) :
  forall hs,
    (forall k a b, pair_at hs k a b -> f b a = g b a) ->
    unwrap_spec f hs = unwrap_spec g hs.
Proof.
  induction hs as [|p tl IH]; intro H; [reflexivity|].
  destruct tl as [|c tl]; [reflexivity|].
  rewrite !unwrap_spec_cons.
  rewrite (H 0%nat p c) by (split; reflexivity).
  destruct (g c p); [reflexivity|].
  f_equal. apply IH.
  intros k a b Hp. apply (H (S k)). apply pair_at_cons. assumption.
Qed.

(** ** The two corrections compared *)

(** C3, as the code has it: the trajectory parser applies the rule of
    the specification with the trigger [hours[t] <= hours[t-1]]; the
    capture-log parser applies it with the strict trigger
    [hours[t] < hours[t-1]]; the two corrections are equal on every
    sequence in which no two adjacent hours are equal. *)
Theorem rollover_refinement :
  (forall (C : Type) (l : list (sample C)),
      hours_of (rinex_rollover l) = unwrap_spec at_or_below (hours_of l))
  /\
  (forall hs : list Q, timestamp_rollover hs = unwrap_spec below hs)
  /\
  (forall (C : Type) (l : list (sample C)),
      (forall k a b, pair_at (hours_of l) k a b -> ~ a == b) ->
      hours_of (rinex_rollover l) = timestamp_rollover (hours_of l)).
Proof.
  split; [|split].
  - intros C l. apply rinex_rollover_spec.
  - apply timestamp_rollover_spec.
  - intros C l H.
    rewrite rinex_rollover_spec, timestamp_rollover_spec.
    apply unwrap_spec_ext. intros k a b Hp.
    specialize (H k a b Hp). unfold at_or_below, below.
    destruct (Qltb b a) eqn:E.
    + apply Qle_bool_iff. apply Qltb_lt in E. lra.
    + apply Qltb_ge in E.
      destruct (Qle_bool b a) eqn:E'; [|reflexivity].
      apply Qle_bool_iff in E'. exfalso. apply H. lra.
Qed.

Lemma rollover_refinement_witness :
  hours_of (rinex_rollover late_swap_raw)
  = timestamp_rollover (hours_of late_swap_raw).
Proof.
  apply (proj2 (proj2 rollover_refinement) Q late_swap_raw).
  intros k a b [Ha Hb].
  destruct k as [|[|[|[|k]]]]; simpl in Ha, Hb; try discriminate;
    injection Ha as <-; injection Hb as <-; intro H; discriminate H.
Defined.

(** C3 as it is worded fails on two samples at the same hour 5: the
    trajectory correction adds a day to the second, the capture-log
    correction leaves both as they are. *)
Lemma rollover_refinement_counterexample :
  hours_of same_instant_raw = [5; 5] /\
  hours_of (rinex_rollover same_instant_raw) = [5; 5 + 24] /\
  timestamp_rollover (hours_of same_instant_raw) = [5; 5] /\
  hours_of (rinex_rollover same_instant_raw)
    <> timestamp_rollover (hours_of same_instant_raw).
Proof.
  repeat split; try reflexivity. discriminate.
Qed.

(** ** Monotonicity after the correction *)

Lemma adjacent_ge_tail a l : adjacent_ge (a :: l) -> adjacent_ge l.
Proof.
  intros H k x y Hp. apply (H (S k)). apply pair_at_cons. assumption.
Qed.

Lemma adjacent_ge_cons a b l :
  a <= b -> adjacent_ge (b :: l) -> adjacent_ge (a :: b :: l).
Proof.
  intros Hab H k x y Hp. destruct k as [|k].
  - destruct Hp as [Hx Hy]. simpl in Hx, Hy.
    injection Hx as <-. injection Hy as <-. assumption.
  - apply pair_at_cons in Hp. apply (H k). assumption.
Qed.

Lemma adjacent_ge_add_day l :
  adjacent_ge l -> adjacent_ge (map (fun h => h + 24) l).
Proof.
  intros H k x y [Hx Hy].
  rewrite nth_error_map in Hx, Hy.
  destruct (nth_error l k) as [a|] eqn:Ea; [|discriminate].
  destruct (nth_error l (S k)) as [b|] eqn:Eb; [|discriminate].
  simpl in Hx, Hy. injection Hx as <-. injection Hy as <-.
  assert (Hab : a <= b) by (apply (H k); split; assumption).
  lra.
Qed.

Lemma unwrap_spec_head trigger c tl :
  exists tl', unwrap_spec trigger (c :: tl) = c :: tl'.
Proof.
  destruct tl as [|c' tl]; [exists []; reflexivity|].
  rewrite unwrap_spec_cons. destruct (trigger c' c); eexists; reflexivity.
Qed.

Lemma rollover_index_pos trigger hs t :
  rollover_index trigger hs = Some t -> (1 <= t)%nat.
Proof.
  unfold rollover_index. intro H. apply find_some in H.
  destruct H as [H _]. apply in_seq in H. lia.
Qed.

Lemma unwrap_spec_monotone (trigger : Q -> Q -> bool) :
  (forall c p, trigger c p = false -> p <= c) ->
  forall hs, single_rollover trigger hs -> adjacent_ge (unwrap_spec trigger hs).
Proof.
  intros Htrig. induction hs as [|p tl IH]; intro Hs.
  - intros k a b [Ha _]. destruct k; discriminate.
  - destruct tl as [|c tl].
    + intros k a b [_ Hb]. destruct k as [|k]; [discriminate|].
      destruct k; discriminate.
    + rewrite unwrap_spec_cons.
      pose proof (rollover_index_cons trigger p c tl) as Hidx.
      destruct (trigger c p) eqn:E.
      * destruct (Hs 1%nat Hidx) as [Hm Hday].
        simpl in Hm, Hday.
        change (adjacent_ge (p :: (c + 24) :: map (fun h => h + 24) tl)).
        apply adjacent_ge_cons; [assumption|].
        apply (adjacent_ge_add_day (c :: tl)). assumption.
      * destruct (unwrap_spec_head trigger c tl) as [tl' Htl].
        assert (Hrec : adjacent_ge (unwrap_spec trigger (c :: tl))).
        { apply IH. intros t Ht.
          pose proof (rollover_index_pos _ _ _ Ht) as Hpos.
          rewrite Ht in Hidx. simpl in Hidx.
          destruct (Hs (S t) Hidx) as [Hm Hday].
          split; [exact Hm|].
          destruct t as [|t]; [lia|].
          cbn [Nat.sub nth] in Hday |- *.
          rewrite Nat.sub_0_r. exact Hday. }
        rewrite Htl in Hrec |- *.
        apply adjacent_ge_cons; [|assumption].
        apply Htrig. assumption.
Qed.

(** C4, as the code has it: when the hours as parsed hold one rollover
    at most, every adjacent pair of the corrected sequence satisfies
    [hours[i] >= hours[i-1]], in the trajectory and in the capture
    log. *)
Theorem unwrap_monotone :
  (forall (C : Type) (l : list (sample C)),
      single_rollover at_or_below (hours_of l) ->
      adjacent_ge (hours_of (rinex_rollover l)))
  /\
  (forall hs : list Q,
      single_rollover below hs ->
      adjacent_ge (timestamp_rollover hs)).
Proof.
  split.
  - intros C l H. rewrite rinex_rollover_spec.
    apply unwrap_spec_monotone; [|assumption].
    intros c p E. unfold at_or_below in E.
    destruct (Qlt_le_dec c p) as [Hlt|Hle]; [|assumption].
    exfalso.
    assert (Ht : Qle_bool c p = true) by (apply Qle_bool_iff; lra).
    congruence.
  - intros hs H. rewrite timestamp_rollover_spec.
    apply unwrap_spec_monotone; [|assumption].
    intros c p E. unfold below in E. apply Qltb_ge in E. assumption.
Qed.

Lemma unwrap_monotone_witness :
  hours_of (rinex_rollover midnight_raw)
    = [119 # 5; 479 # 20; (1 # 20) + 24; (1 # 5) + 24] /\
  adjacent_ge (hours_of (rinex_rollover midnight_raw)).
Proof.
  split; [reflexivity|].
  apply (proj1 unwrap_monotone Q midnight_raw).
  intros t Ht. vm_compute in Ht. injection Ht as <-.
  split.
  - intros k a b [Ha Hb].
    destruct k as [|[|k]]; simpl in Ha, Hb; try discriminate.
    injection Ha as <-. injection Hb as <-. discriminate.
  - simpl. discriminate.
Defined.

(** C4 as it is worded fails on the hours 23, 1, 3, 2: both corrections
    give 23, 25, 27, 26, and 26 after 27 is a decrease. *)
Lemma unwrap_monotone_counterexample :
  hours_of late_swap_raw = [23; 1; 3; 2] /\
  hours_of (rinex_rollover late_swap_raw) = [23; 1 + 24; 3 + 24; 2 + 24] /\
  timestamp_rollover [23; 1; 3; 2] = [23; 1 + 24; 3 + 24; 2 + 24] /\
  pair_at (hours_of (rinex_rollover late_swap_raw)) 2 (3 + 24) (2 + 24) /\
  ~ 3 + 24 <= 2 + 24 /\
  ~ adjacent_ge (hours_of (rinex_rollover late_swap_raw)) /\
  ~ adjacent_ge (timestamp_rollover [23; 1; 3; 2]).
Proof.
  assert (Hgt : ~ 3 + 24 <= 2 + 24) by (intro H; apply H; reflexivity).
  repeat split; try reflexivity; try exact Hgt.
  - intro H. apply Hgt. apply (H 2%nat). split; reflexivity.
  - intro H. apply Hgt. apply (H 2%nat). split; reflexivity.
Qed.

(** ** CaptureLogParser: the hour of a capture *)

Lemma bind_ok {A B : Type} (m : result A) (k : A -> result B) (b : B) :
  bind m k = Ok b -> exists a, m = Ok a /\ k a = Ok b.
Proof.
  destruct m as [a|e]; simpl; [|discriminate].
  intro H. exists a. split; [reflexivity|assumption].
Qed.

Ltac bind_inv H x Hx :=
  apply bind_ok in H; destruct H as (x & Hx & H).

Lemma timestamp_row_time py_float row image_id image_time off :
  timestamp_row py_float row = Ok (image_id, image_time, off) ->
  exists seconds,
    iloc row 1 = Ok (Num seconds) /\ image_time = image_time_of seconds.
Proof.
  unfold timestamp_row. intro H.
  bind_inv H c0 H0. bind_inv H c1 H1. bind_inv H seconds Hs.
  bind_inv H es He. bind_inv H ns Hn. bind_inv H zs Hz.
  bind_inv H e He'. bind_inv H n Hn'. bind_inv H z Hz'.
  injection H as _ <- _.
  exists seconds. split; [|reflexivity].
  destruct c1 as [q|s]; simpl in Hs; [|discriminate].
  injection Hs as <-. assumption.
Qed.

Lemma py_int_of_float_nonneg (x : Q) :
  0 <= x -> py_int_of_float x = Qfloor x.
Proof.
  destruct x as [n d]. unfold Qle, py_int_of_float, Qfloor. simpl.
  intro H. apply Z.quot_div_nonneg; lia.
Qed.

(** C7, as the code has it: for a seconds value that is not negative
    the hour stored for the capture is
    [(seconds/3600) - floor(seconds/3600/24)*24], and it lies in
    [[0, 24)]. *)
Theorem capture_hours_range :
  (forall py_float row image_id image_time off,
      timestamp_row py_float row = Ok (image_id, image_time, off) ->
      exists seconds,
        iloc row 1 = Ok (Num seconds) /\ image_time = image_time_of seconds)
  /\
  (forall seconds,
      0 <= seconds ->
      image_time_of seconds
        == seconds / 3600 - inject_Z (Qfloor (seconds / 3600 / 24)) * 24 /\
      0 <= image_time_of seconds /\ image_time_of seconds < 24).
Proof.
  split; [apply timestamp_row_time|].
  intros seconds Hs.
  assert (Hx : 0 <= seconds / 3600 / 24).
  { apply Qle_shift_div_l; [reflexivity|].
    apply Qle_shift_div_l; [reflexivity|]. lra. }
  unfold image_time_of. rewrite (py_int_of_float_nonneg _ Hx).
  split; [reflexivity|].
  pose proof (Qfloor_le (seconds / 3600 / 24)) as Hlo.
  pose proof (Qlt_floor (seconds / 3600 / 24)) as Hhi.
  rewrite inject_Z_plus in Hhi.
  change (inject_Z 1) with 1 in Hhi.
  set (f := inject_Z (Qfloor (seconds / 3600 / 24))) in *.
  unfold Qdiv in *.
  change (/ 24) with (1 # 24) in *. change (/ 3600) with (1 # 3600) in *.
  split; lra.
Qed.

Lemma capture_hours_range_witness :
  image_time_of 90000
    == 90000 / 3600 - inject_Z (Qfloor (90000 / 3600 / 24)) * 24 /\
  0 <= image_time_of 90000 /\ image_time_of 90000 < 24.
Proof.
  apply (proj2 capture_hours_range 90000). discriminate.
Defined.

(** C7 as it is worded fails on the value -3600: [int] drops the
    fraction of -1/24 towards zero, so the hour stored is -1, outside
    [[0, 24)], where the floor gives 23. *)
Lemma capture_hours_counterexample :
  image_time_of (-3600) == -1 /\
  (-3600) / 3600 - inject_Z (Qfloor ((-3600) / 3600 / 24)) * 24 == 23 /\
  ~ image_time_of (-3600)
      == (-3600) / 3600 - inject_Z (Qfloor ((-3600) / 3600 / 24)) * 24 /\
  ~ 0 <= image_time_of (-3600).
Proof.
  split; [reflexivity|]. split; [reflexivity|].
  split; intro H; vm_compute in H; [discriminate H|apply H; reflexivity].
Qed.

(** ** The parsers: all rows or none *)

Lemma mapM_length {A B : Type} (f : A -> result B) :
  forall l bs, mapM f l = Ok bs -> List.length bs = List.length l.
Proof.
  induction l as [|a l IH]; intros bs H; simpl in H.
  - injection H as <-. reflexivity.
  - bind_inv H b Hb. bind_inv H bs' Hbs. injection H as <-.
    simpl. f_equal. apply IH. assumption.
Qed.

Lemma mapM_ok_all {A B : Type} (f : A -> result B) :
  forall l bs, mapM f l = Ok bs ->
    forall a, In a l -> exists b, f a = Ok b.
Proof.
  induction l as [|a l IH]; intros bs H x Hx; [destruct Hx|].
  simpl in H. bind_inv H b Hb. bind_inv H bs' Hbs.
  destruct Hx as [<-|Hx].
  - exists b. assumption.
  - apply (IH bs'); assumption.
Qed.

Lemma rinex_rollover_length {C : Type} (l : list (sample C)) :
  List.length (rinex_rollover l) = List.length l.
Proof.
  destruct l as [|first rest]; [reflexivity|]. simpl. f_equal.
  revert first. induction rest as [|current later IH]; intro past; [reflexivity|].
  cbn [rinex_rollover_from].
  destruct (Qle_bool (hours_decimal current - hours_decimal past) 0).
  - apply length_map.
  - simpl. f_equal. apply IH.
Qed.

Lemma timestamp_rollover_length (hs : list Q) :
  List.length (timestamp_rollover hs) = List.length hs.
Proof.
  destruct hs as [|first rest]; [reflexivity|]. simpl. f_equal.
  revert first. induction rest as [|current later IH]; intro past; [reflexivity|].
  cbn [timestamp_rollover_from].
  destruct (Qltb (current - past) 0).
  - apply length_map.
  - simpl. f_equal. apply IH.
Qed.

Lemma subscript_ok {A : Type} (l : list A) (i : nat) (a : A) :
  subscript l i = Ok a -> nth_error l i = Some a.
Proof.
  unfold subscript. destruct (nth_error l i); [|discriminate].
  intro H. injection H as <-. reflexivity.
Qed.

Lemma convert_ok {A : Type} (parse : string -> option A) s a :
  convert parse s = Ok a -> parse s = Some a.
Proof.
  unfold convert. destruct (parse s); [|discriminate].
  intro H. injection H as <-. reflexivity.
Qed.

(** What a trajectory row that is accepted looks like. *)
Lemma rinex_row_ok py_float row smp :
  rinex_row py_float row = Ok smp ->
  (33 < List.length row)%nat /\
  exists s,
    nth_error row 5 = Some (Str s) /\
    List.length (split_on ":" s) = 3%nat /\
    forall p, In p (split_on ":" s) -> py_float p <> None.
Proof.
  unfold rinex_row. intro H.
  bind_inv H hms Hhms. bind_inv H parts Hparts. bind_inv H vals Hvals.
  destruct vals as [|h [|m [|sec [|x vals]]]]; try discriminate.
  bind_inv H e He. bind_inv H n Hn. bind_inv H z Hz.
  split.
  - apply subscript_ok in Hz. apply nth_error_Some. rewrite Hz. discriminate.
  - destruct hms as [q|s]; simpl in Hparts; [discriminate|].
    injection Hparts as <-.
    exists s. split; [apply subscript_ok; assumption|]. split.
    + apply mapM_length in Hvals. simpl in Hvals. symmetry. assumption.
    + intros p Hp Hnone.
      destruct (mapM_ok_all _ _ _ Hvals p Hp) as [v Hv].
      apply convert_ok in Hv. congruence.
Qed.

Lemma rinex_row_rejects py_float row :
  rinex_row_malformed py_float row ->
  exists e, rinex_row py_float row = Raise e.
Proof.
  intro Hbad.
  destruct (rinex_row py_float row) as [smp|e] eqn:E; [|exists e; reflexivity].
  exfalso. apply rinex_row_ok in E.
  destruct E as [Hlen (s & Hs & Hcount & Hnum)].
  destruct Hbad as [Hshort|q Hq|s' Hs' Hc|s' p Hs' Hp Hnone].
  - lia.
  - congruence.
  - rewrite Hs in Hs'. injection Hs' as <-. contradiction.
  - rewrite Hs in Hs'. injection Hs' as <-. apply (Hnum p); assumption.
Qed.

Lemma mapM_raise {A B : Type} (f : A -> result B) :
  forall l a, In a l -> (exists e, f a = Raise e) ->
    exists e, mapM f l = Raise e.
Proof.
  intros l a Ha [e He].
  destruct (mapM f l) as [bs|e'] eqn:E; [|exists e'; reflexivity].
  destruct (mapM_ok_all _ _ _ E a Ha) as [b Hb]. congruence.
Qed.

Lemma offset_field_ok row j str :
  offset_field row j = Ok str ->
  exists s, nth_error row j = Some (Str s) /\
            str = hd EmptyString (split_on "," s).
Proof.
  unfold offset_field. intro H.
  bind_inv H c Hc. bind_inv H parts Hparts.
  destruct c as [q|s]; simpl in Hparts; [discriminate|].
  injection Hparts as <-.
  exists s. split; [apply subscript_ok; assumption|].
  apply subscript_ok in H.
  destruct (split_on "," s); simpl in H; [discriminate|].
  injection H as <-. reflexivity.
Qed.

(** What a capture-log row that is accepted looks like. *)
Lemma timestamp_row_ok py_float row r :
  timestamp_row py_float row = Ok r ->
  (5 < List.length row)%nat /\
  (exists q, nth_error row 1 = Some (Num q)) /\
  forall j, In j [3; 4; 5]%nat ->
    exists s, nth_error row j = Some (Str s) /\
              py_float (hd EmptyString (split_on "," s)) <> None.
Proof.
  unfold timestamp_row. intro H.
  bind_inv H c0 H0. bind_inv H c1 H1. bind_inv H seconds Hs.
  bind_inv H es He. bind_inv H ns Hn. bind_inv H zs Hz.
  bind_inv H e He'. bind_inv H n Hn'. bind_inv H z Hz'.
  apply offset_field_ok in He, Hn, Hz.
  destruct He as (se & Hse & ->).
  destruct Hn as (sn & Hsn & ->).
  destruct Hz as (sz & Hsz & ->).
  apply convert_ok in He', Hn', Hz'.
  split; [|split].
  - apply nth_error_Some. rewrite Hsz. discriminate.
  - destruct c1 as [q|s]; simpl in Hs; [|discriminate].
    exists q. apply subscript_ok. assumption.
  - intros j [<-|[<-|[<-|[]]]].
    + exists sn. split; [assumption|congruence].
    + exists se. split; [assumption|congruence].
    + exists sz. split; [assumption|congruence].
Qed.

Lemma timestamp_row_rejects py_float row :
  timestamp_row_malformed py_float row ->
  exists e, timestamp_row py_float row = Raise e.
Proof.
  intro Hbad.
  destruct (timestamp_row py_float row) as [r|e] eqn:E; [|exists e; reflexivity].
  exfalso. apply timestamp_row_ok in E.
  destruct E as [Hlen [[q Hq] Hoff]].
  destruct Hbad as [Hshort|s Hs|j q' Hj Hq'|j s Hj Hs Hnone].
  - lia.
  - congruence.
  - destruct (Hoff j Hj) as (s & Hs & _). congruence.
  - destruct (Hoff j Hj) as (s' & Hs' & Hsome).
    rewrite Hs in Hs'. injection Hs' as <-. contradiction.
Qed.

(** C8: the trajectory parser checks the time field and nothing else.
    A time field that is no number makes it return the empty list, as
    [bad_time_table] shows, and an offset that is no number makes the
    capture-log parser return three empty lists, as [bad_offset_table]
    shows.  A coordinate column that holds the token [abc], which
    [float] refuses, is returned as text inside a trajectory of full
    length, against the [List[List[float]]] the function declares; the
    run that reads [east_text_folder] then leaves the matching loop
    with a [TypeError] at the first image whose hour falls between the
    two rows, and writes nothing. *)
Lemma unparsed_column_accepted :
  process_rinex_data decimal_float bad_time_table = [] /\
  process_timestamp_data decimal_float bad_offset_table = ([], [], []) /\
  decimal_float "abc" = None /\
  process_rinex_data decimal_float east_text_table
    = [Sample (10 * 3600 + 0 * 60 + 0) ((10 * 3600 + 0 * 60 + 0) / 3600)
         (Str "12.5") (Num 1) (Num 2);
       Sample (10 * 3600 + 30 * 60 + 0) ((10 * 3600 + 30 * 60 + 0) / 3600)
         (Str "abc") (Num 3) (Num 4)] /\
  pos_table east_text_folder "track.pos" = east_text_table /\
  camera_position_calculator decimal_int decimal_float east_text_folder
    = Raise TypeError.
Proof.
  split; [reflexivity|].
  split; [reflexivity|].
  split; [reflexivity|].
  split; [reflexivity|].
  split; [reflexivity|].
  vm_compute. reflexivity.
Qed.

(** ** Correlator: the first occurrence *)

Lemma py_index_first :
  forall ids image_id k c,
    nth_error ids k = Some c ->
    cell_eq_int c image_id = true ->
    (forall j c', (j < k)%nat -> nth_error ids j = Some c' ->
       cell_eq_int c' image_id = false) ->
    py_index ids image_id = Ok k.
Proof.
  induction ids as [|c0 ids IH]; intros image_id k c Hk Hc Hfirst.
  - destruct k; discriminate.
  - destruct k as [|k]; simpl in Hk |- *.
    + injection Hk as ->. rewrite Hc. reflexivity.
    + rewrite (Hfirst 0%nat c0) by (lia || reflexivity).
      rewrite (IH image_id k c Hk Hc); [reflexivity|].
      intros j c' Hj Hc'. apply (Hfirst (S j) c'); [lia|assumption].
Qed.

Lemma locate_image_first log rinex_data image_id k c hour off :
  nth_error (image_ids log) k = Some c ->
  cell_eq_int c image_id = true ->
  (forall j c', (j < k)%nat -> nth_error (image_ids log) j = Some c' ->
     cell_eq_int c' image_id = false) ->
  nth_error (image_times log) k = Some hour ->
  nth_error (offsets log) k = Some off ->
  locate_image log rinex_data image_id
    = interpolate_coordinates hour rinex_data off.
Proof.
  intros Hk Hc Hfirst Hh Ho. unfold locate_image.
  rewrite (py_index_first _ _ _ _ Hk Hc Hfirst). simpl.
  unfold subscript. rewrite Hh, Ho. reflexivity.
Qed.

Lemma firstn_nth_error_eq {A : Type} (l l' : list A) (n j : nat) :
  firstn n l' = firstn n l -> (j < n)%nat -> nth_error l' j = nth_error l j.
Proof.
  intros H Hj.
  assert (E : nth_error (firstn n l') j = nth_error (firstn n l) j)
    by (rewrite H; reflexivity).
  rewrite !nth_error_firstn in E.
  apply Nat.ltb_lt in Hj. rewrite Hj in E. assumption.
Qed.

(** C9: when the identifier of an image first occurs at index [k] of
    the capture log, the image gets the position interpolated at the
    hour and with the offset stored at [k], or is listed as unmatched
    when that interpolation raises; a capture log that agrees with this
    one up to index [k] gives the same outcome, whatever it holds
    after [k]. *)
Theorem first_occurrence_wins :
  forall log rinex_data image_file image_id st k c hour off,
    nth_error (image_ids log) k = Some c ->
    cell_eq_int c image_id = true ->
    (forall j c', (j < k)%nat -> nth_error (image_ids log) j = Some c' ->
       cell_eq_int c' image_id = false) ->
    nth_error (image_times log) k = Some hour ->
    nth_error (offsets log) k = Some off ->
    locate_image log rinex_data image_id
      = interpolate_coordinates hour rinex_data off /\
    camera_position_step log rinex_data st (image_file, image_id)
      = match interpolate_coordinates hour rinex_data off with
        | Ok p => Ok (Tally (output_data st ++ [(image_file, p)])
                            (S (matched_count st)) (unmatched_images st))
        | Raise _ => Ok (Tally (output_data st) (matched_count st)
                               (unmatched_images st ++ [(image_file, image_id)]))
        end /\
    forall log',
      firstn (S k) (image_ids log') = firstn (S k) (image_ids log) ->
      firstn (S k) (image_times log') = firstn (S k) (image_times log) ->
      firstn (S k) (offsets log') = firstn (S k) (offsets log) ->
      camera_position_step log' rinex_data st (image_file, image_id)
        = camera_position_step log rinex_data st (image_file, image_id).
Proof.
  intros log rinex_data image_file image_id st k c hour off
         Hk Hc Hfirst Hh Ho.
  pose proof (locate_image_first log rinex_data image_id k c hour off
                Hk Hc Hfirst Hh Ho) as Hloc.
  split; [assumption|]. split.
  - unfold camera_position_step. rewrite Hloc.
    destruct (interpolate_coordinates hour rinex_data off) as [p|e] eqn:E;
      [reflexivity|].
    apply interpolate_raise in E. destruct E as [-> _]. reflexivity.
  - intros log' Hids Htimes Hoffs.
    assert (Hloc' : locate_image log' rinex_data image_id
                    = interpolate_coordinates hour rinex_data off).
    { apply (locate_image_first log' rinex_data image_id k c hour off).
      - rewrite (firstn_nth_error_eq _ _ (S k) k Hids) by lia. assumption.
      - assumption.
      - intros j c' Hj Hc'. apply (Hfirst j c'); [assumption|].
        rewrite <- (firstn_nth_error_eq _ _ (S k) j Hids) by lia. assumption.
      - rewrite (firstn_nth_error_eq _ _ (S k) k Htimes) by lia. assumption.
      - rewrite (firstn_nth_error_eq _ _ (S k) k Hoffs) by lia. assumption. }
    unfold camera_position_step. rewrite Hloc, Hloc'. reflexivity.
Qed.

Lemma first_occurrence_wins_witness :
  locate_image twice_log climb_data 42
    = interpolate_coordinates (3 # 2) climb_data (Offset 100 200 300) /\
  camera_position_step twice_log climb_data empty_tally ("DJI_0001_0042.JPG"%string, 42%Z)
    = Ok (Tally
            [("DJI_0001_0042.JPG"%string,
              blend (3 # 2) (Sample 3600 1 10 20 30) (Sample 7200 2 20 40 60)
                (Offset 100 200 300))]
            1 []).
Proof.
  destruct (first_occurrence_wins twice_log climb_data
              "DJI_0001_0042.JPG"%string 42%Z empty_tally 1%nat (Num 42)
              (3 # 2) (Offset 100 200 300)) as (H1 & H2 & _).
  - reflexivity.
  - reflexivity.
  - intros j c' Hj Hc'. destruct j as [|j]; [|lia].
    injection Hc' as <-. reflexivity.
  - reflexivity.
  - reflexivity.
  - split; [exact H1|]. rewrite H2. reflexivity.
Defined.

(** ** ImageIdentifier *)

Lemma split_on_nonempty sep s : split_on sep s <> [].
Proof.
  destruct s as [|c s]; simpl; [discriminate|].
  destruct (Ascii.eqb c sep); [discriminate|].
  destruct (split_on sep s); discriminate.
Qed.

Lemma subscript_head sep s :
  subscript (split_on sep s) 0 = Ok (hd EmptyString (split_on sep s)).
Proof.
  pose proof (split_on_nonempty sep s) as H.
  destruct (split_on sep s); [contradiction|reflexivity].
Qed.

(** The token at index 2 of the filename cut at ["_"], when there are
    three tokens at least, and of it the part before the first ["."]. *)
Lemma extract_try_eq py_int filename :
  extract_try py_int filename =
  match nth_error (split_on "_" filename) 2 with
  | Some tok =>
      match py_int (hd EmptyString (split_on "." tok)) with
      | Some n => Ok (Some n)
      | None => Raise ValueError
      end
  | None => Ok None
  end.
Proof.
  unfold extract_try.
  destruct (3 <=? List.length (split_on "_" filename))%nat eqn:E.
  - apply Nat.leb_le in E.
    destruct (nth_error (split_on "_" filename) 2) as [tok|] eqn:Et.
    + unfold subscript at 1. rewrite Et. simpl.
      rewrite subscript_head. simpl. unfold convert.
      destruct (py_int (hd EmptyString (split_on "." tok))); reflexivity.
    + apply nth_error_None in Et. lia.
  - apply Nat.leb_gt in E.
    destruct (nth_error (split_on "_" filename) 2) as [tok|] eqn:Et;
      [|reflexivity].
    assert (H : (2 < List.length (split_on "_" filename))%nat).
    { apply nth_error_Some. rewrite Et. discriminate. }
    lia.
Qed.

(** C10: for every filename the function returns, an integer or
    [None], and raises nothing.  It returns the integer [n] exactly when
    the filename cut at ["_"] has three tokens at least and [int]
    accepts, with value [n], the part of the token at index 2 before
    its first ["."]; it returns [None] in every other case. *)
Theorem extract_image_id_total :
  forall py_int filename,
    (exists r, extract_image_id_from_filename py_int filename = Ok r) /\
    (forall n,
        extract_image_id_from_filename py_int filename = Ok (Some n) <->
        (3 <= List.length (split_on "_" filename))%nat /\
        exists tok,
          nth_error (split_on "_" filename) 2 = Some tok /\
          py_int (hd EmptyString (split_on "." tok)) = Some n) /\
    (extract_image_id_from_filename py_int filename = Ok None <->
     ~ ((3 <= List.length (split_on "_" filename))%nat /\
        exists tok n,
          nth_error (split_on "_" filename) 2 = Some tok /\
          py_int (hd EmptyString (split_on "." tok)) = Some n)).
Proof.
  intros py_int filename.
  unfold extract_image_id_from_filename. rewrite extract_try_eq.
  destruct (nth_error (split_on "_" filename) 2) as [tok|] eqn:Et.
  - assert (Hlen : (3 <= List.length (split_on "_" filename))%nat).
    { assert (H : (2 < List.length (split_on "_" filename))%nat)
        by (apply nth_error_Some; rewrite Et; discriminate).
      lia. }
    destruct (py_int (hd EmptyString (split_on "." tok))) as [m|] eqn:Em.
    + split; [eexists; reflexivity|]. split.
      * intro n. split.
        -- intro H. injection H as <-. split; [assumption|].
           exists tok. split; [reflexivity|assumption].
        -- intros [_ (tok' & Ht' & Hn)].
           injection Ht' as <-. rewrite Em in Hn. injection Hn as <-.
           reflexivity.
      * split; [discriminate|].
        intro H. exfalso. apply H. split; [assumption|].
        exists tok, m. split; [reflexivity|assumption].
    + split; [eexists; reflexivity|]. split.
      * intro n. split; [discriminate|].
        intros [_ (tok' & Ht' & Hn)].
        injection Ht' as <-. congruence.
      * split; [|reflexivity].
        intros _ [_ (tok' & n & Ht' & Hn)].
        injection Ht' as <-. congruence.
  - split; [eexists; reflexivity|]. split.
    + intro n. split; [discriminate|].
      intros [_ (tok' & Ht' & _)]. discriminate.
    + split; [|reflexivity].
      intros _ [_ (tok' & n & Ht' & _)]. discriminate.
Qed.

Example extract_dji :
  extract_image_id_from_filename decimal_int "DJI_0001_0042.JPG" = Ok (Some 42%Z).
Proof. reflexivity. Qed.

Example extract_badname :
  extract_image_id_from_filename decimal_int "badname.jpg" = Ok None.
Proof. reflexivity. Qed.

Example extract_not_a_number :
  extract_image_id_from_filename decimal_int "DJI_0001_final.JPG" = Ok None.
Proof. reflexivity. Qed.

(** The cut loses nothing: the tokens joined by the separator give the
    string back, and no token holds the separator. *)
Lemma split_on_concat sep s :
  String.concat (String sep EmptyString) (split_on sep s) = s.
Proof.
  induction s as [|c s IH]; [reflexivity|].
  simpl. destruct (Ascii.eqb c sep) eqn:E.
  - apply Ascii.eqb_eq in E. subst c.
    pose proof (split_on_nonempty sep s) as Hne.
    destruct (split_on sep s) as [|p ps]; [contradiction|].
    cbn [String.concat]. cbn [String.concat] in IH.
    simpl. f_equal. assumption.
  - pose proof (split_on_nonempty sep s) as Hne.
    destruct (split_on sep s) as [|p ps]; [contradiction|].
    destruct ps as [|p' ps]; simpl in IH |- *; f_equal; assumption.
Qed.

Lemma split_on_no_sep sep s :
  forall p, In p (split_on sep s) ->
    ~ In sep (list_ascii_of_string p).
Proof.
  induction s as [|c s IH]; intros p Hp.
  - destruct Hp as [<-|[]]. intros [].
  - simpl in Hp. destruct (Ascii.eqb c sep) eqn:E.
    + destruct Hp as [<-|Hp]; [intros []|apply IH; assumption].
    + apply Ascii.eqb_neq in E.
      pose proof (split_on_nonempty sep s) as Hne.
      destruct (split_on sep s) as [|q qs]; [contradiction|].
      destruct Hp as [<-|Hp].
      * simpl. intros [H|H]; [congruence|].
        apply (IH q); [left; reflexivity|assumption].
      * apply IH. right. assumption.
Qed.

(** The rollover scenario of the specification: the trajectory hours
    become 23.8, 23.95, 24.05, 24.2; a capture at 0.1 after one at 23.9
    becomes 24.1 and is interpolated between the rows at 24.05 and
    24.2. *)
Example midnight_scenario :
  timestamp_rollover [239 # 10; 1 # 10] = [239 # 10; (1 # 10) + 24] /\
  interpolate_coordinates ((1 # 10) + 24) (rinex_rollover midnight_raw) zero_offset
    = Ok (blend ((1 # 10) + 24)
            (Sample 180 ((1 # 20) + 24) 20 20 20)
            (Sample 720 ((1 # 5) + 24) 30 30 30) zero_offset).
Proof. split; reflexivity. Qed.

(** The trajectories of the counterexamples are what the parser makes
    of such files: the hours it returns for [late_dip_table] are 23, 46,
    45, 47 and for [overlong_table] 30, 25, 26. *)
Example parsed_hours :
  Forall2 Qeq (hours_of (process_rinex_data decimal_float late_dip_table))
              [23; 46; 45; 47] /\
  Forall2 Qeq (hours_of (process_rinex_data decimal_float overlong_table))
              [30; 25; 26].
Proof.
  split; repeat constructor; reflexivity.
Qed.

Example decimal_float_fraction : decimal_float "12.5" = Some (12 + 5 / 10).
Proof. reflexivity. Qed.

(** * Further properties *)

(** ** PositionInterpolator: the range it covers *)

Lemma adjacent_lt_ge hs : adjacent_lt hs -> adjacent_ge hs.
Proof.
  intros H k a b Hp. apply Qlt_le_weak. apply (H k). assumption.
Qed.

Lemma interpolate_from_covers hour off :
  forall rest first n lst,
    List.length rest = n ->
    nth_error (first :: rest) n = Some lst ->
    adjacent_ge (hours_of (first :: rest)) ->
    hours_decimal first <= hour ->
    hour < hours_decimal lst ->
    exists p, interpolate_from hour first rest off = Ok p.
Proof.
  induction rest as [|second later IH]; intros first n lst Hlen Hl Hm Hlo Hhi.
  - simpl in Hlen. subst n. simpl in Hl. injection Hl as <-. lra.
  - simpl in Hlen. subst n. simpl in Hl. simpl.
    destruct (interpolate_pair hour first second off) as [p|] eqn:E.
    + exists p. reflexivity.
    + apply interpolate_pair_none in E. destruct E as [Hi Hb].
      apply (IH second (List.length later) lst); try assumption.
      * reflexivity.
      * apply (adjacent_ge_tail (hours_decimal first)). exact Hm.
      * unfold interior, boundary in Hi, Hb.
        destruct (Qlt_le_dec hour (hours_decimal second)) as [Hlt|Hge];
          [|assumption].
        exfalso. apply Hi. split; [|assumption].
        destruct (Qlt_le_dec (hours_decimal first) hour) as [H|H];
          [assumption|].
        exfalso. apply Hb. lra.
Qed.

(** X1: on a trajectory whose hours never decrease, every query from
    the first hour up to, but not reaching, the last hour is given a
    position; when the hours strictly increase these are the only
    queries that are. *)
Theorem interpolation_covers_range :
  (forall hour data off n first lst,
      List.length data = S n ->
      nth_error data 0 = Some first ->
      nth_error data n = Some lst ->
      adjacent_ge (hours_of data) ->
      hours_decimal first <= hour ->
      hour < hours_decimal lst ->
      exists p, interpolate_coordinates hour data off = Ok p)
  /\
  (forall hour data off n first lst p,
      List.length data = S n ->
      nth_error data 0 = Some first ->
      nth_error data n = Some lst ->
      adjacent_lt (hours_of data) ->
      interpolate_coordinates hour data off = Ok p ->
      hours_decimal first <= hour /\ hour < hours_decimal lst).
Proof.
  split.
  - intros hour data off n first lst Hlen Hf Hl Hm Hlo Hhi.
    destruct data as [|first' rest]; [discriminate|].
    simpl in Hf. injection Hf as ->. simpl in Hlen. injection Hlen as Hlen.
    simpl. apply (interpolate_from_covers hour off rest first n lst);
      assumption.
  - intros hour data off n first lst p Hlen Hf Hl Hlt Hok.
    pose proof (adjacent_lt_ge _ Hlt) as Hm.
    destruct (interpolate_ok _ _ _ _ Hok) as (k & a & b & Hp & _ & Hpair).
    pose proof (pair_at_hours data k a b Hp) as Hph.
    destruct Hp as [Ha Hb].
    assert (Hk : (S k < List.length data)%nat)
      by (apply nth_error_Some; rewrite Hb; discriminate).
    assert (L1 : hours_decimal first <= hours_decimal a)
      by (apply (hours_chain data 0 k); [assumption|lia|assumption|assumption]).
    assert (L2 : hours_decimal b <= hours_decimal lst)
      by (apply (hours_chain data (S k) n); [assumption|lia|assumption|assumption]).
    assert (L3 : hours_decimal a < hours_decimal b) by (apply (Hlt k); exact Hph).
    destruct (interpolate_pair_some _ _ _ _ _ Hpair) as [[[H1 H2] _]|[Hbd _]].
    + split; lra.
    + unfold boundary in Hbd. split; lra.
Qed.

Lemma climb_hours_increase : adjacent_lt (hours_of climb_data).
Proof.
  intros k a b [Ha Hb].
  destruct k as [|[|[|k]]]; simpl in Ha, Hb; try discriminate;
    injection Ha as <-; injection Hb as <-; reflexivity.
Defined.

Lemma interpolation_covers_range_witness :
  exists p, interpolate_coordinates (7 # 4) climb_data zero_offset = Ok p.
Proof.
  apply (proj1 interpolation_covers_range (7 # 4) climb_data zero_offset 2%nat
           (Sample 0 0 0 0 0) (Sample 7200 2 20 40 60)).
  - reflexivity.
  - reflexivity.
  - reflexivity.
  - apply adjacent_lt_ge. exact climb_hours_increase.
  - discriminate.
  - reflexivity.
Defined.

(** ** The correction: what it leaves alone *)

Lemma day_shift_add_day {C : Type} (l : list (sample C)) :
  Forall2 day_shift l (map add_day l).
Proof.
  induction l as [|s l IH]; simpl; constructor; [|assumption].
  unfold day_shift. simpl. tauto.
Qed.

Lemma day_shift_same {C : Type} (s : sample C) : day_shift s s.
Proof. unfold day_shift. tauto. Qed.

Lemma rinex_rollover_from_shift {C : Type} :
  forall (rest : list (sample C)) (past : sample C),
    Forall2 day_shift rest (rinex_rollover_from past rest).
Proof.
  induction rest as [|current later IH]; intro past; [constructor|].
  cbn [rinex_rollover_from].
  destruct (Qle_bool (hours_decimal current - hours_decimal past) 0).
  - apply day_shift_add_day.
  - constructor; [apply day_shift_same|apply IH].
Qed.

(** X3: the trajectory correction returns as many rows as it is given
    and changes nothing but the hours: the seconds-of-day column and the
    three coordinates of every row are as parsed, and its hours are as
    parsed or 24 more. *)
Theorem rollover_changes_hours_only :
  forall (C : Type) (l : list (sample C)),
    Forall2 day_shift l (rinex_rollover l).
Proof.
  intros C l. destruct l as [|first rest]; [constructor|].
  simpl. constructor.
  - apply day_shift_same.
  - apply rinex_rollover_from_shift.
Qed.

(** ** The correction: when it does nothing *)

Lemma adjacent_lt_tail a l : adjacent_lt (a :: l) -> adjacent_lt l.
Proof.
  intros H k x y Hp. apply (H (S k)). apply pair_at_cons. assumption.
Qed.

Lemma adjacent_lt_cons a b l :
  a < b -> adjacent_lt (b :: l) -> adjacent_lt (a :: b :: l).
Proof.
  intros Hab H k x y Hp. destruct k as [|k].
  - destruct Hp as [Hx Hy]. simpl in Hx, Hy.
    injection Hx as <-. injection Hy as <-. assumption.
  - apply pair_at_cons in Hp. apply (H k). assumption.
Qed.

Lemma adjacent_short (a : Q) :
  (forall k x y, ~ pair_at [a] k x y) /\ (forall k x y, ~ @pair_at Q [] k x y).
Proof.
  split; intros k x y [Hx Hy]; destruct k as [|[|k]]; discriminate.
Qed.

Lemma a_day_later_differs (h : Q) : h + 24 <> h.
Proof.
  intro H. assert (E : h + 24 == h) by (rewrite H; reflexivity). lra.
Qed.

Lemma rinex_rollover_from_fixed {C : Type} :
  forall (rest : list (sample C)) (past : sample C),
    rinex_rollover_from past rest = rest <->
    adjacent_lt (hours_decimal past :: hours_of rest).
Proof.
  induction rest as [|current later IH]; intro past.
  - split; [|reflexivity]. intros _ k x y Hp.
    exfalso. apply (proj1 (adjacent_short (hours_decimal past)) k x y Hp).
  - cbn [rinex_rollover_from hours_of map]. rewrite Qle_bool_diff.
    destruct (Qle_bool (hours_decimal current) (hours_decimal past)) eqn:E.
    + split.
      * intro H. exfalso. simpl in H. injection H as H _.
        apply (f_equal hours_decimal) in H. simpl in H.
        apply (a_day_later_differs _ H).
      * intro H. exfalso. apply Qle_bool_iff in E.
        assert (L : hours_decimal past < hours_decimal current)
          by (apply (H 0%nat); split; reflexivity).
        lra.
    + assert (L : hours_decimal past < hours_decimal current).
      { apply Qnot_le_lt. intro Hle. apply Qle_bool_iff in Hle. congruence. }
      split.
      * intro H. injection H as H.
        apply adjacent_lt_cons; [assumption|]. apply IH. assumption.
      * intro H. f_equal. apply IH.
        apply (adjacent_lt_tail (hours_decimal past)). exact H.
Qed.

Lemma timestamp_rollover_from_fixed :
  forall (rest : list Q) (past : Q),
    timestamp_rollover_from past rest = rest <-> adjacent_ge (past :: rest).
Proof.
  induction rest as [|current later IH]; intro past.
  - split; [|reflexivity]. intros _ k x y Hp.
    exfalso. apply (proj1 (adjacent_short past) k x y Hp).
  - cbn [timestamp_rollover_from]. rewrite Qltb_diff.
    destruct (Qltb current past) eqn:E.
    + split.
      * intro H. exfalso. simpl in H. injection H as H _.
        apply (a_day_later_differs _ H).
      * intro H. exfalso. apply Qltb_lt in E.
        assert (L : past <= current) by (apply (H 0%nat); split; reflexivity).
        lra.
    + apply Qltb_ge in E. split.
      * intro H. injection H as H.
        apply adjacent_ge_cons; [assumption|]. apply IH. assumption.
      * intro H. f_equal. apply IH.
        apply (adjacent_ge_tail past). exact H.
Qed.

(** X4: the trajectory correction returns its rows unchanged exactly
    when their hours strictly increase, and the capture-log correction
    returns its hours unchanged exactly when they never decrease. *)
Theorem rollover_fixed_points :
  (forall (C : Type) (l : list (sample C)),
      rinex_rollover l = l <-> adjacent_lt (hours_of l))
  /\
  (forall hs : list Q, timestamp_rollover hs = hs <-> adjacent_ge hs).
Proof.
  split.
  - intros C l. destruct l as [|first rest].
    + split; [|reflexivity]. intros _ k x y Hp.
      exfalso. apply (proj2 (adjacent_short 0) k x y Hp).
    + simpl. rewrite <- rinex_rollover_from_fixed.
      split; intro H; [injection H as H; assumption|f_equal; assumption].
  - intros hs. destruct hs as [|first rest].
    + split; [|reflexivity]. intros _ k x y Hp.
      exfalso. apply (proj2 (adjacent_short 0) k x y Hp).
    + simpl. rewrite <- timestamp_rollover_from_fixed.
      split; intro H; [injection H as H; assumption|f_equal; assumption].
Qed.

(** ** The parsers: exactly which tables they refuse *)

Lemma mapM_Forall2 {A B : Type} (f : A -> result B) :
  forall l bs, mapM f l = Ok bs -> Forall2 (fun a b => f a = Ok b) l bs.
Proof.
  induction l as [|a l IH]; intros bs H; simpl in H.
  - injection H as <-. constructor.
  - bind_inv H b Hb. bind_inv H bs' Hbs. injection H as <-.
    constructor; [assumption|apply IH; assumption].
Qed.

Lemma mapM_raise_inv {A B : Type} (f : A -> result B) :
  forall l e, mapM f l = Raise e -> exists a e', In a l /\ f a = Raise e'.
Proof.
  induction l as [|a l IH]; intros e H; simpl in H; [discriminate|].
  destruct (f a) as [b|e'] eqn:Ea.
  - simpl in H. destruct (mapM f l) as [bs|e''] eqn:El; [discriminate|].
    destruct (IH e'' eq_refl) as (a' & e3 & Hin & Ha').
    exists a', e3. split; [right; assumption|assumption].
  - exists a, e'. split; [left; reflexivity|assumption].
Qed.

Lemma convert_raise {A : Type} (parse : string -> option A) s e :
  convert parse s = Raise e -> parse s = None.
Proof.
  unfold convert. destruct (parse s); [discriminate|reflexivity].
Qed.

Lemma iloc_raise row j e :
  iloc row j = Raise e -> (List.length row <= j)%nat.
Proof.
  unfold iloc, subscript.
  destruct (nth_error row j) eqn:E; [discriminate|].
  intros _. apply nth_error_None. assumption.
Qed.

Lemma rinex_row_raise py_float row e :
  rinex_row py_float row = Raise e -> rinex_row_malformed py_float row.
Proof.
  unfold rinex_row. intro H.
  destruct (iloc row 5) as [c|e5] eqn:E5; simpl in H.
  2:{ apply rinex_columns_missing. apply iloc_raise in E5. lia. }
  apply subscript_ok in E5.
  destruct c as [q|s]; simpl in H.
  { apply (rinex_time_not_text _ _ q). assumption. }
  destruct (mapM (convert py_float) (split_on ":" s)) as [vals|ev] eqn:Ev;
    simpl in H.
  2:{ destruct (mapM_raise_inv _ _ _ Ev) as (p & e' & Hin & Hp).
      apply (rinex_time_not_numeric _ _ s p); [assumption|assumption|].
      apply (convert_raise _ _ _ Hp). }
  apply mapM_length in Ev.
  destruct vals as [|h [|m [|sec [|x vals]]]];
    try (apply (rinex_time_field_count _ _ s); [assumption|];
         simpl in Ev; rewrite <- Ev; discriminate).
  destruct (iloc row 24) as [c24|e24] eqn:E24; simpl in H.
  2:{ apply rinex_columns_missing. apply iloc_raise in E24. lia. }
  destruct (iloc row 25) as [c25|e25] eqn:E25; simpl in H.
  2:{ apply rinex_columns_missing. apply iloc_raise in E25. lia. }
  destruct (iloc row 33) as [c33|e33] eqn:E33; simpl in H.
  2:{ apply rinex_columns_missing. apply iloc_raise in E33. lia. }
  discriminate.
Qed.

(** X6: the trajectory parser returns the empty list exactly when the
    table has no rows or holds a row that lacks a column it indexes,
    whose time field is not text, does not have three [":"]-separated
    components, or has a component that [float] refuses. *)
Theorem rinex_refused_exactly :
  forall py_float table,
    process_rinex_data py_float table = [] <->
    table = [] \/
    exists row, In row table /\ rinex_row_malformed py_float row.
Proof.
  intros py_float table. unfold process_rinex_data, rinex_try. split.
  - destruct (mapM (rinex_row py_float) table) as [rows|e] eqn:E; simpl.
    + intro H. left.
      pose proof (rinex_rollover_length rows) as Hl. rewrite H in Hl.
      apply mapM_length in E. rewrite <- Hl in E.
      destruct table; [reflexivity|discriminate].
    + intros _. right.
      destruct (mapM_raise_inv _ _ _ E) as (row & e' & Hin & Hrow).
      exists row. split; [assumption|].
      apply (rinex_row_raise _ _ _ Hrow).
  - intros [->|(row & Hin & Hbad)]; [reflexivity|].
    destruct (mapM_raise (rinex_row py_float) table row Hin
                (rinex_row_rejects _ _ Hbad)) as [e He].
    rewrite He. reflexivity.
Qed.

Lemma offset_field_raise row j e :
  offset_field row j = Raise e ->
  (List.length row <= j)%nat \/ exists q, nth_error row j = Some (Num q).
Proof.
  unfold offset_field. intro H.
  destruct (iloc row j) as [c|ec] eqn:Ec; simpl in H.
  2:{ left. apply (iloc_raise _ _ _ Ec). }
  apply subscript_ok in Ec.
  destruct c as [q|s]; simpl in H.
  - right. exists q. assumption.
  - rewrite subscript_head in H. discriminate.
Qed.

Lemma timestamp_row_raise py_float row e :
  timestamp_row py_float row = Raise e -> timestamp_row_malformed py_float row.
Proof.
  assert (Field : forall j e', In j [3; 4; 5]%nat ->
            offset_field row j = Raise e' -> timestamp_row_malformed py_float row).
  { intros j e' Hj Hf. destruct (offset_field_raise _ _ _ Hf) as [Hlen|[q Hq]].
    - apply timestamp_columns_missing.
      destruct Hj as [<-|[<-|[<-|[]]]]; lia.
    - apply (timestamp_offset_not_text _ _ j q); assumption. }
  assert (Number : forall j str e', In j [3; 4; 5]%nat ->
            offset_field row j = Ok str -> convert py_float str = Raise e' ->
            timestamp_row_malformed py_float row).
  { intros j str e' Hj Hf Hc.
    destruct (offset_field_ok _ _ _ Hf) as (s & Hs & ->).
    apply (timestamp_offset_not_numeric _ _ j s); [assumption|assumption|].
    apply (convert_raise _ _ _ Hc). }
  unfold timestamp_row. intro H.
  destruct (iloc row 0) as [c0|e0] eqn:E0; simpl in H.
  2:{ apply timestamp_columns_missing. apply iloc_raise in E0. lia. }
  destruct (iloc row 1) as [c1|e1] eqn:E1; simpl in H.
  2:{ apply timestamp_columns_missing. apply iloc_raise in E1. lia. }
  apply subscript_ok in E1.
  destruct c1 as [q|s]; simpl in H.
  2:{ apply (timestamp_seconds_text _ _ s). assumption. }
  destruct (offset_field row 4) as [es|ee] eqn:E4; simpl in H.
  2:{ apply (Field 4%nat ee); [right; left; reflexivity|assumption]. }
  destruct (offset_field row 3) as [ns|en] eqn:E3; simpl in H.
  2:{ apply (Field 3%nat en); [left; reflexivity|assumption]. }
  destruct (offset_field row 5) as [zs|ez] eqn:E5; simpl in H.
  2:{ apply (Field 5%nat ez); [right; right; left; reflexivity|assumption]. }
  destruct (convert py_float es) as [ev|ee] eqn:C4; simpl in H.
  2:{ apply (Number 4%nat es ee); [right; left; reflexivity|assumption|assumption]. }
  destruct (convert py_float ns) as [nv|en] eqn:C3; simpl in H.
  2:{ apply (Number 3%nat ns en); [left; reflexivity|assumption|assumption]. }
  destruct (convert py_float zs) as [zv|ez] eqn:C5; simpl in H.
  2:{ apply (Number 5%nat zs ez);
        [right; right; left; reflexivity|assumption|assumption]. }
  discriminate.
Qed.

(** X7: on a table whose cells are numbers or text, so with no blank
    field, which pandas reads as [nan] and [int] refuses, the
    capture-log parser returns three empty lists exactly when the table
    has no rows or holds a row that lacks a column it indexes, has text
    for seconds, or has an offset that is a bare number or whose first
    [","]-separated token [float] refuses. *)
Theorem timestamp_refused_exactly :
  forall py_float table,
    process_timestamp_data py_float table = ([], [], []) <->
    table = [] \/
    exists row, In row table /\ timestamp_row_malformed py_float row.
Proof.
  intros py_float table. unfold process_timestamp_data, timestamp_try. split.
  - destruct (mapM (timestamp_row py_float) table) as [rows|e] eqn:E; simpl.
    + intro H. left. injection H as _ _ H.
      apply mapM_length in E.
      destruct rows; [|discriminate].
      destruct table; [reflexivity|discriminate].
    + intros _. right.
      destruct (mapM_raise_inv _ _ _ E) as (row & e' & Hin & Hrow).
      exists row. split; [assumption|].
      apply (timestamp_row_raise _ _ _ Hrow).
  - intros [->|(row & Hin & Hbad)]; [reflexivity|].
    destruct (mapM_raise (timestamp_row py_float) table row Hin
                (timestamp_row_rejects _ _ Hbad)) as [e He].
    rewrite He. reflexivity.
Qed.

(** ** The parsers: what the rows they return hold *)

Lemma Forall2_compose {A B D : Type} (R : A -> B -> Prop) (S : B -> D -> Prop) :
  forall l1 l2 l3,
    Forall2 R l1 l2 -> Forall2 S l2 l3 ->
    Forall2 (fun a d => exists b, R a b /\ S b d) l1 l3.
Proof.
  intros l1 l2 l3 H. revert l3.
  induction H as [|a b l1 l2 Hab _ IH]; intros l3 H3.
  - inversion H3. constructor.
  - inversion H3 as [|b' d l2' l3' Hbd Hrest]; subst.
    constructor; [exists b; split; assumption|apply IH; assumption].
Qed.

Lemma mapM_convert_ok {A : Type} (parse : string -> option A) :
  forall l vs, mapM (convert parse) l = Ok vs -> map parse l = map Some vs.
Proof.
  induction l as [|s l IH]; intros vs H; simpl in H.
  - injection H as <-. reflexivity.
  - bind_inv H v Hv. bind_inv H vs' Hvs. injection H as <-.
    apply convert_ok in Hv. simpl. rewrite Hv. f_equal. apply IH. assumption.
Qed.

Lemma rinex_row_parsed py_float row s :
  rinex_row py_float row = Ok s ->
  exists text h m sec,
    nth_error row 5 = Some (Str text) /\
    map py_float (split_on ":" text) = [Some h; Some m; Some sec] /\
    total_seconds s = h * 3600 + m * 60 + sec /\
    hours_decimal s = total_seconds s / 3600 /\
    nth_error row 24 = Some (east s) /\
    nth_error row 25 = Some (north s) /\
    nth_error row 33 = Some (elevation s).
Proof.
  unfold rinex_row. intro H.
  bind_inv H hms Hhms. bind_inv H parts Hparts. bind_inv H vals Hvals.
  destruct vals as [|h [|m [|sec [|x vals]]]]; try discriminate.
  bind_inv H e He. bind_inv H n Hn. bind_inv H z Hz.
  injection H as <-.
  destruct hms as [q|text]; simpl in Hparts; [discriminate|].
  injection Hparts as <-.
  apply subscript_ok in Hhms, He, Hn, Hz.
  apply mapM_convert_ok in Hvals.
  exists text, h, m, sec. simpl. repeat split; assumption.
Qed.

Lemma rinex_try_parsed py_float table rows :
  rinex_try py_float table = Ok rows ->
  Forall2 (parsed_from py_float) table rows.
Proof.
  unfold rinex_try. intro H. bind_inv H parsed E. injection H as <-.
  apply mapM_Forall2 in E.
  assert (Hs : Forall2 day_shift parsed (rinex_rollover parsed)).
  { destruct parsed as [|first rest]; [constructor|].
    simpl. constructor; [apply day_shift_same|apply rinex_rollover_from_shift]. }
  pose proof (Forall2_compose _ _ _ _ _ E Hs) as H.
  revert H. apply Forall2_impl.
  intros row s' (s & Hrow & Hshift).
  destruct (rinex_row_parsed _ _ _ Hrow)
    as (text & h & m & sec & H5 & Hparts & Htot & Hh & H24 & H25 & H33).
  destruct Hshift as (St & Se & Sn & Sz & Sh).
  exists text, h, m, sec.
  rewrite St, Se, Sn, Sz.
  split; [assumption|]. split; [assumption|]. split; [assumption|].
  split; [|split; [assumption|split; assumption]].
  destruct Sh as [->| ->]; [left|right]; rewrite Hh; reflexivity.
Qed.

(** X8: when the trajectory parser returns rows, it returns one for
    every row of the table, in the order of the table, and each holds
    [H*3600 + M*60 + S] seconds for the three components of the time
    text, those seconds over 3600 as hours (or 24 more), and the cells
    of columns 24, 25 and 33 as east, north and elevation. *)
Theorem rinex_rows_in_order :
  forall py_float table,
    process_rinex_data py_float table <> [] ->
    Forall2 (parsed_from py_float) table (process_rinex_data py_float table).
Proof.
  intros py_float table. unfold process_rinex_data.
  destruct (rinex_try py_float table) as [rows|e] eqn:E.
  - intros _. apply (rinex_try_parsed _ _ _ E).
  - intro H. contradiction.
Qed.

Lemma rinex_rows_in_order_witness :
  Forall2 (parsed_from decimal_float) late_dip_table
    (process_rinex_data decimal_float late_dip_table).
Proof.
  apply (rinex_rows_in_order decimal_float late_dip_table).
  discriminate.
Defined.

Lemma offset_field_number py_float row j str v :
  offset_field row j = Ok str -> convert py_float str = Ok v ->
  offset_number py_float row j v.
Proof.
  intros Hf Hc. destruct (offset_field_ok _ _ _ Hf) as (text & Ht & ->).
  exists text. split; [assumption|]. apply convert_ok. assumption.
Qed.

Lemma timestamp_row_logged py_float row image_id image_time off :
  timestamp_row py_float row = Ok (image_id, image_time, off) ->
  logged_from py_float row image_id off /\
  exists seconds,
    nth_error row 1 = Some (Num seconds) /\ image_time = image_time_of seconds.
Proof.
  intro H.
  destruct (timestamp_row_time _ _ _ _ _ H) as (seconds & Hs & Ht).
  apply subscript_ok in Hs.
  split; [|exists seconds; split; assumption].
  unfold timestamp_row in H.
  bind_inv H c0 H0. bind_inv H c1 H1. bind_inv H secs Hsecs.
  bind_inv H es He. bind_inv H ns Hn. bind_inv H zs Hz.
  bind_inv H e He'. bind_inv H n Hn'. bind_inv H z Hz'.
  injection H as <- _ <-.
  apply subscript_ok in H0.
  unfold logged_from. simpl.
  split; [assumption|].
  split; [|split]; eapply offset_field_number; eassumption.
Qed.

(** X9: when the capture-log parser returns rows, its three lists have
    one entry for every row of the table, in the order of the table: at
    each index the identifier is the cell of column 0, the east offset
    is read from column 4, the north offset from column 3 and the
    elevation offset from column 5, and the hours are the corrected
    hours of day of the seconds of column 1. *)
Theorem capture_log_in_order :
  forall py_float table times ids offs,
    process_timestamp_data py_float table = (times, ids, offs) ->
    times <> [] ->
    Forall2 (fun row entry => logged_from py_float row (fst entry) (snd entry))
      table (combine ids offs) /\
    List.length ids = List.length table /\
    List.length offs = List.length table /\
    exists seconds,
      Forall2 (fun row q => nth_error row 1 = Some (Num q)) table seconds /\
      times = timestamp_rollover (map image_time_of seconds).
Proof.
  intros py_float table times ids offs.
  unfold process_timestamp_data, timestamp_try.
  destruct (mapM (timestamp_row py_float) table) as [rows|e] eqn:E; cbn [bind].
  2:{ intros H Hne. injection H as <- _ _. contradiction. }
  intros H _. injection H as <- <- <-.
  pose proof (mapM_length _ _ _ E) as Hlen.
  apply mapM_Forall2 in E.
  split; [|split; [|split]].
  - clear Hlen. induction E as [|row r table rows Hr _ IH]; simpl;
      constructor; [|assumption].
    destruct r as [[image_id image_time] off]. simpl.
    apply (timestamp_row_logged _ _ _ _ _ Hr).
  - rewrite length_map. assumption.
  - rewrite length_map. assumption.
  - exists (map (fun row => match nth_error row 1 with
                            | Some (Num q) => q
                            | _ => 0
                            end) table).
    split.
    + clear Hlen. induction E as [|row r table rows Hr _ IH]; cbn [map];
        constructor; [|assumption].
      destruct r as [[image_id image_time] off].
      destruct (timestamp_row_logged _ _ _ _ _ Hr) as [_ (q & Hq & _)].
      rewrite Hq. reflexivity.
    + f_equal. clear Hlen.
      induction E as [|row r table rows Hr _ IH]; cbn [map]; [reflexivity|].
      rewrite IH. f_equal.
      destruct r as [[image_id image_time] off].
      destruct (timestamp_row_logged _ _ _ _ _ Hr) as [_ (q & Hq & ->)].
      rewrite Hq. reflexivity.
Qed.

Lemma capture_log_in_order_witness :
  Forall2 (fun row entry => logged_from decimal_float row (fst entry) (snd entry))
    [[Num 1; Num 86000; Num 0; Str "10,N"; Str "20,E"; Str "30,V"]]
    (combine [Num 1] [Offset 20 10 30]).
Proof.
  apply (capture_log_in_order decimal_float
           [[Num 1; Num 86000; Num 0; Str "10,N"; Str "20,E"; Str "30,V"]]
           [image_time_of 86000] [Num 1] [Offset 20 10 30]).
  - reflexivity.
  - discriminate.
Defined.

(** ** Correlator: what becomes of one image *)

Lemma py_index_ok :
  forall ids image_id k,
    py_index ids image_id = Ok k ->
    exists c,
      nth_error ids k = Some c /\ cell_eq_int c image_id = true /\
      forall j c', (j < k)%nat -> nth_error ids j = Some c' ->
        cell_eq_int c' image_id = false.
Proof.
  induction ids as [|c0 ids IH]; intros image_id k H; simpl in H;
    [discriminate|].
  destruct (cell_eq_int c0 image_id) eqn:E0.
  - injection H as <-. exists c0. split; [reflexivity|]. split; [assumption|].
    intros j c' Hj. lia.
  - bind_inv H i Hi. injection H as <-.
    destruct (IH image_id i Hi) as (c & Hc & Hm & Hfirst).
    exists c. split; [assumption|]. split; [assumption|].
    intros j c' Hj Hc'. destruct j as [|j].
    + simpl in Hc'. injection Hc' as <-. assumption.
    + apply (Hfirst j c'); [lia|assumption].
Qed.

Lemma py_index_raise :
  forall ids image_id e,
    py_index ids image_id = Raise e <->
    e = ValueError /\ forall c, In c ids -> cell_eq_int c image_id = false.
Proof.
  induction ids as [|c0 ids IH]; intros image_id e; simpl.
  - split.
    + intro H. injection H as <-. split; [reflexivity|]. intros c [].
    + intros [-> _]. reflexivity.
  - destruct (cell_eq_int c0 image_id) eqn:E0.
    + split; [discriminate|]. intros [_ H].
      rewrite (H c0) in E0 by (left; reflexivity). discriminate.
    + destruct (py_index ids image_id) as [i|e'] eqn:Ei; simpl.
      * split; [discriminate|]. intros [He H]. exfalso.
        assert (R : py_index ids image_id = Raise e).
        { apply IH. split; [assumption|].
          intros c Hc. apply H. right. assumption. }
        congruence.
      * specialize (IH image_id e'). destruct IH as [IH1 _].
        destruct (IH1 Ei) as [-> Hall].
        split.
        -- intro H. injection H as <-. split; [reflexivity|].
           intros c [<-|Hc]; [assumption|apply Hall; assumption].
        -- intros [-> _]. reflexivity.
Qed.

(** What [locate_image] raises is [ValueError] or [IndexError], the two
    kinds the loop catches. *)
Lemma locate_image_raises log rinex_data image_id e :
  locate_image log rinex_data image_id = Raise e ->
  e = ValueError \/ e = IndexError.
Proof.
  unfold locate_image. intro H.
  destruct (py_index (image_ids log) image_id) as [k|e1] eqn:E1; simpl in H.
  2:{ injection H as <-. apply py_index_raise in E1. left. tauto. }
  unfold subscript in H.
  destruct (nth_error (image_times log) k) as [hour|]; simpl in H.
  2:{ injection H as <-. right. reflexivity. }
  destruct (nth_error (offsets log) k) as [off|]; simpl in H.
  2:{ injection H as <-. right. reflexivity. }
  apply interpolate_raise in H. left. tauto.
Qed.

(** ** Correlator: the whole loop *)

Lemma matched_rows_cons log rinex_data image rest :
  matched_rows log rinex_data (image :: rest)
  = match locate_image log rinex_data (snd image) with
    | Ok p => [(fst image, p)]
    | Raise _ => []
    end ++ matched_rows log rinex_data rest.
Proof. reflexivity. Qed.

(** X12: the loop over the images never raises.  It appends to the
    output one row for every image that [locate_image] places, in the
    order of the images, appends every other image to the unmatched
    ones, and counts the rows it appends; so every image ends in one of
    the two lists. *)
Theorem loop_accounts_for_every_image :
  forall log rinex_data images st,
    camera_position_loop log rinex_data st images
      = Ok (Tally (output_data st ++ matched_rows log rinex_data images)
                  (matched_count st
                   + List.length (matched_rows log rinex_data images))
                  (unmatched_images st ++ unmatched_rows log rinex_data images))
    /\
    (List.length (matched_rows log rinex_data images)
     + List.length (unmatched_rows log rinex_data images)
     = List.length images)%nat.
Proof.
  intros log rinex_data. induction images as [|[image_file image_id] rest IH];
    intro st.
  - simpl. rewrite !app_nil_r, Nat.add_0_r. destruct st; split; reflexivity.
  - rewrite matched_rows_cons.
    cbn [camera_position_loop camera_position_step unmatched_rows filter snd fst].
    fold (unmatched_rows log rinex_data rest).
    destruct (locate_image log rinex_data image_id) as [p|e] eqn:E.
    + cbn [bind]. destruct (IH (Tally (output_data st ++ [(image_file, p)])
                                  (S (matched_count st)) (unmatched_images st)))
        as [IH1 IH2].
      rewrite IH1. cbn [output_data matched_count unmatched_images].
      split.
      * f_equal. f_equal.
        -- rewrite <- app_assoc. reflexivity.
        -- simpl. lia.
      * simpl. lia.
    + destruct (locate_image_raises _ _ _ _ E) as [-> | ->];
        cbn [bind];
        destruct (IH (Tally (output_data st) (matched_count st)
                        (unmatched_images st ++ [(image_file, image_id)])))
          as [IH1 IH2];
        rewrite IH1; cbn [output_data matched_count unmatched_images];
        (split; [f_equal; f_equal; rewrite <- app_assoc; reflexivity
                |simpl; lia]).
Qed.

(** ** ImageIdentifier: what the name may hold besides the number *)

Lemma split_on_app sep a b :
  split_on sep (a ++ String sep b) = split_on sep a ++ split_on sep b.
Proof.
  induction a as [|c a IH]; simpl.
  - rewrite Ascii.eqb_refl. reflexivity.
  - destruct (Ascii.eqb c sep).
    + rewrite IH. reflexivity.
    + rewrite IH. pose proof (split_on_nonempty sep a) as Hne.
      destruct (split_on sep a) as [|p ps]; [contradiction|reflexivity].
Qed.

Lemma split_on_free sep s :
  ~ In sep (list_ascii_of_string s) -> split_on sep s = [s].
Proof.
  induction s as [|c s IH]; intro H; [reflexivity|].
  simpl in H |- *.
  destruct (Ascii.eqb c sep) eqn:E.
  - apply Ascii.eqb_eq in E. exfalso. apply H. left. assumption.
  - rewrite IH; [reflexivity|]. intro Hin. apply H. right. assumption.
Qed.

Lemma split_on_head_app sep a b :
  ~ In sep (list_ascii_of_string a) ->
  hd EmptyString (split_on sep (a ++ b))
  = (a ++ hd EmptyString (split_on sep b))%string.
Proof.
  induction a as [|c a IH]; intro H; [reflexivity|].
  simpl in H. cbn [append split_on].
  destruct (Ascii.eqb c sep) eqn:E.
  - apply Ascii.eqb_eq in E. exfalso. apply H. left. assumption.
  - assert (Ha : ~ In sep (list_ascii_of_string a))
      by (intro Hin; apply H; right; assumption).
    specialize (IH Ha).
    pose proof (split_on_nonempty sep (a ++ b)) as Hne.
    destruct (split_on sep (a ++ b)) as [|p ps]; [contradiction|].
    simpl in IH |- *. rewrite IH. reflexivity.
Qed.

Lemma extract_from_token py_int filename tok :
  nth_error (split_on "_" filename) 2 = Some tok ->
  extract_image_id_from_filename py_int filename
  = Ok (py_int (hd EmptyString (split_on "." tok))).
Proof.
  intro H. unfold extract_image_id_from_filename.
  rewrite extract_try_eq, H.
  destruct (py_int (hd EmptyString (split_on "." tok))); reflexivity.
Qed.

(** X13: a name [p1_p2_ID.ext], where [p1], [p2] and [ID] hold no
    ["_"] and [ID] holds no ["."], gives what [int] makes of [ID],
    whatever [ext] is; and whatever follows a further ["_"] after three
    tokens is not looked at. *)
Theorem extract_reads_third_token :
  (forall py_int p1 p2 id_text ext,
      ~ In "_"%char (list_ascii_of_string p1) ->
      ~ In "_"%char (list_ascii_of_string p2) ->
      ~ In "_"%char (list_ascii_of_string id_text) ->
      ~ In "."%char (list_ascii_of_string id_text) ->
      extract_image_id_from_filename py_int
        (p1 ++ "_" ++ p2 ++ "_" ++ id_text ++ "." ++ ext)
      = Ok (py_int id_text))
  /\
  (forall py_int name tail,
      (3 <= List.length (split_on "_" name))%nat ->
      extract_image_id_from_filename py_int (name ++ "_" ++ tail)
      = extract_image_id_from_filename py_int name).
Proof.
  split.
  - intros py_int p1 p2 id_text ext H1 H2 H3 H4.
    set (r := (id_text ++ "." ++ ext)%string).
    assert (Hsplit : split_on "_" (p1 ++ "_" ++ p2 ++ "_" ++ r)
                     = [p1; p2] ++ split_on "_" r).
    { change (p1 ++ "_" ++ p2 ++ "_" ++ r)%string
        with (p1 ++ String "_" (p2 ++ String "_" r))%string.
      rewrite !split_on_app, (split_on_free _ p1 H1), (split_on_free _ p2 H2).
      reflexivity. }
    pose proof (split_on_nonempty "_" r) as Hne.
    destruct (split_on "_" r) as [|tok toks] eqn:Er; [contradiction|].
    rewrite (extract_from_token py_int _ tok) by (rewrite Hsplit; reflexivity).
    assert (Htok : tok = (id_text ++ hd EmptyString (split_on "_" ("." ++ ext)))%string).
    { change tok with (hd EmptyString (tok :: toks)). rewrite <- Er.
      unfold r. apply split_on_head_app. assumption. }
    assert (Hdot : hd EmptyString (split_on "_" ("." ++ ext))
                   = String "." (hd EmptyString (split_on "_" ext))).
    { change ("." ++ ext)%string with (String "." ext). cbn [split_on].
      change (Ascii.eqb "." "_") with false. cbv iota.
      pose proof (split_on_nonempty "_" ext) as Hx.
      destruct (split_on "_" ext); [contradiction|reflexivity]. }
    rewrite Htok, Hdot, split_on_app, (split_on_free _ id_text H4).
    reflexivity.
  - intros py_int name tail Hlen.
    destruct (nth_error (split_on "_" name) 2) as [tok|] eqn:Et.
    2:{ apply nth_error_None in Et. lia. }
    rewrite (extract_from_token py_int name tok Et).
    apply extract_from_token.
    change (name ++ "_" ++ tail)%string with (name ++ String "_" tail)%string.
    rewrite split_on_app, nth_error_app1; [assumption|lia].
Qed.

Lemma extract_reads_third_token_witness :
  extract_image_id_from_filename decimal_int "DJI_0001_0042.JPG" = Ok (Some 42%Z) /\
  extract_image_id_from_filename decimal_int "DJI_0001_0042_W.JPG"
    = extract_image_id_from_filename decimal_int "DJI_0001_0042".
Proof.
  split.
  - apply (proj1 extract_reads_third_token decimal_int
             "DJI"%string "0001"%string "0042"%string "JPG"%string).
    + intro H. simpl in H. repeat (destruct H as [H|H]; [discriminate H|]). exact H.
    + intro H. simpl in H. repeat (destruct H as [H|H]; [discriminate H|]). exact H.
    + intro H. simpl in H. repeat (destruct H as [H|H]; [discriminate H|]). exact H.
    + intro H. simpl in H. repeat (destruct H as [H|H]; [discriminate H|]). exact H.
  - apply (proj2 extract_reads_third_token decimal_int
             "DJI_0001_0042"%string "W.JPG"%string).
    simpl. lia.
Defined.

(** ** The interpolator on rows as the parser returns them *)


Lemma interpolate_pair_in_raise hour a b off e :
  interpolate_pair_in cell_number hour a b off = Some (Raise e) ->
  e = TypeError /\ (~ numeric_row a \/ ~ numeric_row b).
Proof.
  assert (Text : forall (s : sample cell) t,
            east s = Str t \/ north s = Str t \/ elevation s = Str t ->
            ~ numeric_row s).
  { intros s t H (e' & n' & z' & He & Hn & Hz).
    destruct H as [H|[H|H]]; congruence. }
  unfold interpolate_pair_in.
  destruct a as [ts h ea na za]. destruct b as [ts' h' eb nb zb]. simpl.
  destruct (Qltb h hour && Qltb hour h').
  - destruct ea as [e0|t]; simpl.
    2:{ intro H. injection H as <-. split; [reflexivity|].
        left. apply (Text _ t). simpl. tauto. }
    destruct eb as [e1|t]; simpl.
    2:{ intro H. injection H as <-. split; [reflexivity|].
        right. apply (Text _ t). simpl. tauto. }
    destruct na as [n0|t]; simpl.
    2:{ intro H. injection H as <-. split; [reflexivity|].
        left. apply (Text _ t). simpl. tauto. }
    destruct nb as [n1|t]; simpl.
    2:{ intro H. injection H as <-. split; [reflexivity|].
        right. apply (Text _ t). simpl. tauto. }
    destruct za as [z0|t]; simpl.
    2:{ intro H. injection H as <-. split; [reflexivity|].
        left. apply (Text _ t). simpl. tauto. }
    destruct zb as [z1|t]; simpl.
    2:{ intro H. injection H as <-. split; [reflexivity|].
        right. apply (Text _ t). simpl. tauto. }
    discriminate.
  - destruct (Qeq_bool h hour); [|discriminate].
    destruct ea as [e0|t]; simpl.
    2:{ intro H. injection H as <-. split; [reflexivity|].
        left. apply (Text _ t). simpl. tauto. }
    destruct na as [n0|t]; simpl.
    2:{ intro H. injection H as <-. split; [reflexivity|].
        left. apply (Text _ t). simpl. tauto. }
    destruct za as [z0|t]; simpl.
    2:{ intro H. injection H as <-. split; [reflexivity|].
        left. apply (Text _ t). simpl. tauto. }
    discriminate.
Qed.


Lemma interpolate_in_raise hour data off e :
  interpolate_coordinates_in cell_number hour data off = Raise e ->
  e = ValueError \/ (e = TypeError /\ exists s, In s data /\ ~ numeric_row s).
Proof.
  destruct data as [|first rest]; simpl.
  { intro H. injection H as <-. left. reflexivity. }
  revert first. induction rest as [|second later IH]; intro first; simpl.
  { intro H. injection H as <-. left. reflexivity. }
  destruct (interpolate_pair_in cell_number hour first second off)
    as [[q|e']|] eqn:E.
  - discriminate.
  - intro H. injection H as ->. right.
    destruct (interpolate_pair_in_raise _ _ _ _ _ E) as [-> [Hn|Hn]].
    + split; [reflexivity|]. exists first. split; [left; reflexivity|assumption].
    + split; [reflexivity|].
      exists second. split; [right; left; reflexivity|assumption].
  - intro H. destruct (IH second H) as [->|[-> (s & Hin & Hs)]].
    + left. reflexivity.
    + right. split; [reflexivity|].
      exists s. split; [right; assumption|assumption].
Qed.


Lemma locate_in_raise log data image_id e :
  locate_image_in cell_number log data image_id = Raise e ->
  e = ValueError \/ e = IndexError \/
  (e = TypeError /\ exists s, In s data /\ ~ numeric_row s).
Proof.
  unfold locate_image_in. intro H.
  destruct (py_index (image_ids log) image_id) as [k|e1] eqn:E1; simpl in H.
  2:{ injection H as <-. apply py_index_raise in E1. left. tauto. }
  unfold subscript in H.
  destruct (nth_error (image_times log) k) as [hour|]; simpl in H.
  2:{ injection H as <-. right. left. reflexivity. }
  destruct (nth_error (offsets log) k) as [off|]; simpl in H.
  2:{ injection H as <-. right. left. reflexivity. }
  destruct (interpolate_in_raise _ _ _ _ H) as [->|H']; tauto.
Qed.

(** X11: with a capture log whose three lists are equally long and a
    trajectory as the parser returns it, coordinates numeric or text,
    one turn of the matching loop ends in one of three ways.  The image
    is appended with the position interpolated at the hour and offset
    of the first entry carrying its identifier.  Or it is appended to
    the unmatched images, when no entry carries its identifier or that
    interpolation raises [ValueError].  Or the turn raises [TypeError]
    out of the loop, when that interpolation reads a text coordinate. *)
Theorem image_matched_listed_or_fatal :
  forall log (rinex_data : list (sample cell)) st image_file image_id,
    List.length (image_times log) = List.length (image_ids log) ->
    List.length (offsets log) = List.length (image_ids log) ->
    (exists k hour off p,
        first_carrying log image_id k hour off /\
        interpolate_coordinates_in cell_number hour rinex_data off = Ok p /\
        camera_position_step_in cell_number log rinex_data st
          (image_file, image_id)
          = Ok (Tally (output_data st ++ [(image_file, p)])
                      (S (matched_count st)) (unmatched_images st)))
    \/
    (camera_position_step_in cell_number log rinex_data st
       (image_file, image_id)
       = Ok (Tally (output_data st) (matched_count st)
                   (unmatched_images st ++ [(image_file, image_id)])) /\
     ((forall c, In c (image_ids log) -> cell_eq_int c image_id = false) \/
      exists k hour off,
        first_carrying log image_id k hour off /\
        interpolate_coordinates_in cell_number hour rinex_data off
          = Raise ValueError))
    \/
    (camera_position_step_in cell_number log rinex_data st
       (image_file, image_id) = Raise TypeError /\
     (exists k hour off,
        first_carrying log image_id k hour off /\
        interpolate_coordinates_in cell_number hour rinex_data off
          = Raise TypeError) /\
     exists s, In s rinex_data /\ ~ numeric_row s).
Proof.
  intros log rinex_data st image_file image_id Ht Ho.
  unfold camera_position_step_in, locate_image_in.
  destruct (py_index (image_ids log) image_id) as [k|e] eqn:Ek; simpl.
  - destruct (py_index_ok _ _ _ Ek) as (c & Hc & Hm & Hfirst).
    assert (Hk : (k < List.length (image_ids log))%nat)
      by (apply nth_error_Some; rewrite Hc; discriminate).
    destruct (nth_error (image_times log) k) as [hour|] eqn:Eh.
    2:{ apply nth_error_None in Eh. lia. }
    destruct (nth_error (offsets log) k) as [off|] eqn:Eo.
    2:{ apply nth_error_None in Eo. lia. }
    assert (Hf : first_carrying log image_id k hour off).
    { exists c. repeat split; assumption. }
    unfold subscript. rewrite Eh, Eo. simpl.
    destruct (interpolate_coordinates_in cell_number hour rinex_data off)
      as [p|e] eqn:Ei.
    + left. exists k, hour, off, p. repeat split; assumption.
    + destruct (interpolate_in_raise _ _ _ _ Ei) as [->|[-> Hs]].
      * right. left. split; [reflexivity|]. right.
        exists k, hour, off. split; assumption.
      * right. right. split; [reflexivity|]. split; [|assumption].
        exists k, hour, off. split; assumption.
  - apply py_index_raise in Ek. destruct Ek as [-> Hall].
    right. left. split; [reflexivity|]. left. assumption.
Qed.

Lemma image_matched_listed_or_fatal_witness :
  camera_position_step_in cell_number quarter_past_log
    (process_rinex_data decimal_float east_text_table) empty_tally
    ("DJI_0001_0001.JPG"%string, 1%Z) = Raise TypeError /\
  camera_position_step_in cell_number twice_log (map as_cells climb_data)
    empty_tally ("DJI_0001_0099.JPG"%string, 99%Z)
    = Ok (Tally [] 0 [("DJI_0001_0099.JPG"%string, 99%Z)]).
Proof.
  split.
  - destruct (image_matched_listed_or_fatal quarter_past_log
                (process_rinex_data decimal_float east_text_table) empty_tally
                "DJI_0001_0001.JPG"%string 1%Z eq_refl eq_refl)
      as [(k & hour & off & p & _ & _ & H)|[[H _]|[H _]]].
    + discriminate H.
    + discriminate H.
    + exact H.
  - destruct (image_matched_listed_or_fatal twice_log (map as_cells climb_data)
                empty_tally "DJI_0001_0099.JPG"%string 99%Z eq_refl eq_refl)
      as [(k & hour & off & p & _ & _ & H)|[[H _]|[H _]]].
    + discriminate H.
    + exact H.
    + discriminate H.
Defined.

(** What the loop returns when it returns, and what it raises when it
    raises. *)
Lemma loop_in_ok {C : Type} (num : C -> result Q) log data :
  forall images st st',
    camera_position_loop_in num log data st images = Ok st' ->
    output_data st' = output_data st ++ matched_rows_in num log data images.
Proof.
  induction images as [|[image_file image_id] rest IH]; intros st st' H.
  - simpl in H. injection H as <-. simpl. rewrite app_nil_r. reflexivity.
  - cbn [camera_position_loop_in] in H. bind_inv H st1 H1.
    rewrite (IH _ _ H). unfold matched_rows_in. cbn [flat_map snd fst].
    unfold camera_position_step_in in H1.
    destruct (locate_image_in num log data image_id) as [p|e].
    + injection H1 as <-. simpl. rewrite <- app_assoc. reflexivity.
    + destruct e; try discriminate; injection H1 as <-; reflexivity.
Qed.

Lemma loop_in_raise {C : Type} (num : C -> result Q) log data :
  forall images st e,
    camera_position_loop_in num log data st images = Raise e ->
    e <> ValueError /\ e <> IndexError /\
    exists image,
      In image images /\ locate_image_in num log data (snd image) = Raise e.
Proof.
  induction images as [|[image_file image_id] rest IH]; intros st e H.
  - discriminate.
  - cbn [camera_position_loop_in] in H.
    destruct (camera_position_step_in num log data st (image_file, image_id))
      as [st1|e1] eqn:E1; simpl in H.
    + destruct (IH _ _ H) as (Hv & Hi & image & Hin & Hl).
      split; [assumption|]. split; [assumption|].
      exists image. split; [right; assumption|assumption].
    + injection H as <-.
      unfold camera_position_step_in in E1.
      destruct (locate_image_in num log data image_id) as [p|e] eqn:El;
        [discriminate|].
      destruct e; try discriminate; injection E1 as <-;
        (split; [discriminate|]; split; [discriminate|];
         exists (image_file, image_id); split; [left; reflexivity|exact El]).
Qed.

(** ** [camera_position_calculator]: the shape of a run *)

Lemma extract_never_raises py_int f :
  exists r, extract_image_id_from_filename py_int f = Ok r.
Proof.
  unfold extract_image_id_from_filename. rewrite extract_try_eq.
  destruct (nth_error (split_on "_" f) 2) as [tok|]; [|eexists; reflexivity].
  destruct (py_int (hd EmptyString (split_on "." tok))); eexists; reflexivity.
Qed.

Lemma extract_ids_ok py_int :
  forall files,
    exists invalid,
      extract_ids py_int files = Ok (identified py_int files, invalid).
Proof.
  induction files as [|f files [invalid IH]].
  - exists []. reflexivity.
  - cbn [extract_ids]. unfold identified. cbn [flat_map].
    fold (identified py_int files).
    destruct (extract_never_raises py_int f) as [r Hr]. rewrite Hr, IH.
    cbn [bind fst snd].
    destruct r as [id|]; eexists; reflexivity.
Qed.

(** A run returns [False] at one of its checks, or gets to the loop over
    the identified images with the first [.pos] and the first [.MRK]
    file of the listing. *)
Lemma calculator_run py_int py_float dir :
  camera_position_calculator py_int py_float dir = Ok None \/
  exists rinex_file timestamp_file pos_rest mrk_rest,
    filter (fun f => ends_with f ".pos") (listing dir) = rinex_file :: pos_rest /\
    filter (fun f => ends_with f ".MRK") (listing dir)
      = timestamp_file :: mrk_rest /\
    camera_position_calculator py_int py_float dir
    = (let '(times, ids, offs) :=
         process_timestamp_data py_float (mrk_table dir timestamp_file) in
       st <- camera_position_loop_in cell_number (CaptureLog times ids offs)
               (process_rinex_data py_float (pos_table dir rinex_file))
               (Tally [] 0 [])
               (identified py_int (filter is_image (listing dir))) ;;
       match output_data st with
       | [] => Ok None
       | _ :: _ => Ok (Some (output_data st))
       end).
Proof.
  unfold camera_position_calculator.
  destruct (filter is_image (listing dir)) as [|image images] eqn:Ei;
    [left; reflexivity|].
  destruct (extract_ids_ok py_int (image :: images)) as [invalid Hx].
  rewrite Hx. cbn [bind fst].
  destruct (identified py_int (image :: images)) as [|v valid] eqn:Ev;
    [left; reflexivity|].
  destruct (filter (fun f => ends_with f ".pos") (listing dir))
    as [|rinex_file pos_rest]; [left; reflexivity|].
  destruct (process_rinex_data py_float (pos_table dir rinex_file))
    as [|row rows] eqn:Er; [left; reflexivity|].
  destruct (filter (fun f => ends_with f ".MRK") (listing dir))
    as [|timestamp_file mrk_rest]; [left; reflexivity|].
  destruct (process_timestamp_data py_float (mrk_table dir timestamp_file))
    as [[times ids] offs] eqn:Et.
  destruct times as [|t times]; [left; reflexivity|].
  right. exists rinex_file, timestamp_file, pos_rest, mrk_rest.
  split; [reflexivity|]. split; [reflexivity|].
  rewrite Er, Et. reflexivity.
Qed.

(** X14: when a run writes rows there is at least one row, and the
    rows are those of the first [.pos] and the first [.MRK] file of the
    listing: one for each listed [.JPG] or [.jpg] file whose name gives
    an identifier and whose identifier the loop places, in the order of
    the listing. *)
Theorem calculator_output :
  forall py_int py_float dir rows,
    camera_position_calculator py_int py_float dir = Ok (Some rows) ->
    rows <> [] /\
    exists rinex_file timestamp_file,
      hd_error (filter (fun f => ends_with f ".pos") (listing dir))
        = Some rinex_file /\
      hd_error (filter (fun f => ends_with f ".MRK") (listing dir))
        = Some timestamp_file /\
      rows = expected_rows py_int py_float dir rinex_file timestamp_file.
Proof.
  intros py_int py_float dir rows H.
  destruct (calculator_run py_int py_float dir)
    as [Hnone|(rinex_file & timestamp_file & pos_rest & mrk_rest & Hp & Hm & Hrun)].
  { rewrite Hnone in H. discriminate. }
  rewrite Hrun in H. clear Hrun.
  destruct (process_timestamp_data py_float (mrk_table dir timestamp_file))
    as [[times ids] offs] eqn:Et.
  bind_inv H st Hst.
  apply loop_in_ok in Hst. cbn [output_data app] in Hst.
  destruct (output_data st) as [|r rs] eqn:Eo; [discriminate|].
  injection H as <-.
  split; [discriminate|].
  exists rinex_file, timestamp_file.
  rewrite Hp, Hm. split; [reflexivity|]. split; [reflexivity|].
  unfold expected_rows. rewrite Et. assumption.
Qed.

Lemma calculator_output_witness :
  expected_rows decimal_int decimal_float flight_folder "track.pos" "shots.MRK"
    <> [] /\
  map fst (expected_rows decimal_int decimal_float flight_folder
             "track.pos" "shots.MRK")
    = ["DJI_0001_0001.JPG"; "DJI_0001_0002.jpg"]%string.
Proof.
  destruct (calculator_output decimal_int decimal_float flight_folder
              (expected_rows decimal_int decimal_float flight_folder
                 "track.pos" "shots.MRK"))
    as [Hne _].
  - vm_compute. reflexivity.
  - split; [exact Hne|]. vm_compute. reflexivity.
Defined.

(** ** [camera_position_calculator]: the checks *)

Lemma identified_none py_int files :
  (forall f, In f files -> extract_image_id_from_filename py_int f = Ok None) ->
  identified py_int files = [].
Proof.
  induction files as [|f files IH]; intro H; [reflexivity|].
  unfold identified. cbn [flat_map]. fold (identified py_int files).
  rewrite (H f) by (left; reflexivity).
  apply IH. intros f' Hf'. apply H. right. assumption.
Qed.

(** X15: a run returns [False], and the script leaves the status 1,
    when the listing holds no [.JPG] or [.jpg] file, when no such file
    gives an identifier, when it holds no [.pos] file or no [.MRK] file,
    when the parser returns nothing for the first [.pos] file, or when
    the parser returns nothing for the first [.MRK] file. *)
Theorem calculator_checks :
  forall py_int py_float dir,
    filter is_image (listing dir) = [] \/
    (forall f, In f (listing dir) -> is_image f = true ->
       extract_image_id_from_filename py_int f = Ok None) \/
    filter (fun f => ends_with f ".pos") (listing dir) = [] \/
    filter (fun f => ends_with f ".MRK") (listing dir) = [] \/
    (forall f rest,
        filter (fun f => ends_with f ".pos") (listing dir) = f :: rest ->
        process_rinex_data py_float (pos_table dir f) = []) \/
    (forall f rest,
        filter (fun f => ends_with f ".MRK") (listing dir) = f :: rest ->
        process_timestamp_data py_float (mrk_table dir f) = ([], [], [])) ->
    camera_position_calculator py_int py_float dir = Ok None /\
    exit_status (camera_position_calculator py_int py_float dir) = 1%Z.
Proof.
  intros py_int py_float dir H.
  assert (R : camera_position_calculator py_int py_float dir = Ok None);
    [|rewrite R; split; reflexivity].
  unfold camera_position_calculator.
  destruct (filter is_image (listing dir)) as [|image images] eqn:Ei;
    [reflexivity|].
  destruct (extract_ids_ok py_int (image :: images)) as [invalid Hx].
  rewrite Hx. cbn [bind fst].
  destruct (identified py_int (image :: images)) as [|v valid] eqn:Ev;
    [reflexivity|].
  destruct (filter (fun f => ends_with f ".pos") (listing dir))
    as [|rinex_file pos_rest] eqn:Ep; [reflexivity|].
  destruct (process_rinex_data py_float (pos_table dir rinex_file))
    as [|row rows] eqn:Er; [reflexivity|].
  destruct (filter (fun f => ends_with f ".MRK") (listing dir))
    as [|timestamp_file mrk_rest] eqn:Em; [reflexivity|].
  destruct (process_timestamp_data py_float (mrk_table dir timestamp_file))
    as [[times ids] offs] eqn:Et.
  destruct times as [|t times]; [reflexivity|].
  exfalso.
  destruct H as [H|[H|[H|[H|[H|H]]]]]; try discriminate.
  - rewrite identified_none in Ev; [discriminate|].
    intros f Hf. rewrite <- Ei in Hf. apply filter_In in Hf.
    apply H; tauto.
  - rewrite (H rinex_file pos_rest eq_refl) in Er. discriminate.
  - rewrite (H timestamp_file mrk_rest eq_refl) in Et. discriminate.
Qed.

Lemma calculator_checks_witness :
  camera_position_calculator decimal_int decimal_float no_log_folder = Ok None /\
  exit_status (camera_position_calculator decimal_int decimal_float no_log_folder)
    = 1%Z.
Proof.
  apply (calculator_checks decimal_int decimal_float no_log_folder).
  right. right. right. left. reflexivity.
Defined.

(** ** [camera_position_calculator]: text in the trajectory *)

Lemma Forall2_In_r {A B : Type} (R : A -> B -> Prop) :
  forall l l' b, Forall2 R l l' -> In b l' -> exists a, In a l /\ R a b.
Proof.
  intros l l' b H. induction H as [|a b' l l' Hab _ IH]; intro Hin.
  - destruct Hin.
  - destruct Hin as [<-|Hin].
    + exists a. split; [left; reflexivity|assumption].
    + destruct (IH Hin) as (a' & Ha' & Hr).
      exists a'. split; [right; assumption|assumption].
Qed.

Lemma process_rinex_rows py_float table s :
  In s (process_rinex_data py_float table) ->
  exists row, In row table /\ parsed_from py_float row s.
Proof.
  unfold process_rinex_data.
  destruct (rinex_try py_float table) as [rows|e] eqn:E; [|intros []].
  apply Forall2_In_r. apply (rinex_try_parsed _ _ _ E).
Qed.





(** ** [camera_position_calculator]: numbers in the trajectory *)

(** X17: when the cells of the columns 24, 25 and 33 of the first
    [.pos] file are numbers, no exception leaves a run: it returns
    [True] or [False]. *)
Theorem numeric_run_returns :
  forall py_int py_float dir,
    (forall f rest row j c,
        filter (fun f => ends_with f ".pos") (listing dir) = f :: rest ->
        In row (pos_table dir f) ->
        In j [24; 25; 33]%nat ->
        nth_error row j = Some c ->
        exists q, c = Num q) ->
    exists r, camera_position_calculator py_int py_float dir = Ok r.
Proof.
  intros py_int py_float dir Hnum.
  destruct (calculator_run py_int py_float dir)
    as [Hnone|(rinex_file & timestamp_file & pos_rest & mrk_rest & Hp & Hm & Hrun)];
    [exists None; assumption|].
  rewrite Hrun. clear Hrun.
  set (data := process_rinex_data py_float (pos_table dir rinex_file)).
  assert (Hgood : forall s, In s data -> numeric_row s).
  { intros s Hs.
    destruct (process_rinex_rows _ _ _ Hs) as (row & Hrow & Hparsed).
    destruct Hparsed as (text & h & m & sec & _ & _ & _ & _ & He & Hn & Hz).
    destruct (Hnum rinex_file pos_rest row 24%nat (east s) Hp Hrow) as [e Ee];
      [left; reflexivity|assumption|].
    destruct (Hnum rinex_file pos_rest row 25%nat (north s) Hp Hrow) as [n En];
      [right; left; reflexivity|assumption|].
    destruct (Hnum rinex_file pos_rest row 33%nat (elevation s) Hp Hrow) as [z Ez];
      [right; right; left; reflexivity|assumption|].
    exists e, n, z. repeat split; assumption. }
  destruct (process_timestamp_data py_float (mrk_table dir timestamp_file))
    as [[times ids] offs].
  destruct (camera_position_loop_in cell_number (CaptureLog times ids offs) data
              (Tally [] 0 []) (identified py_int (filter is_image (listing dir))))
    as [st|e] eqn:El; cbn [bind].
  - destruct (output_data st); eexists; reflexivity.
  - exfalso.
    destruct (loop_in_raise _ _ _ _ _ _ El) as (Hv & Hi & image & _ & Hl).
    destruct (locate_in_raise _ _ _ _ Hl) as [->|[->|[-> (s & Hs & Hn)]]];
      [contradiction|contradiction|].
    apply Hn. apply Hgood. assumption.
Qed.

Lemma numeric_run_returns_witness :
  exists r, camera_position_calculator decimal_int decimal_float flight_folder = Ok r.
Proof.
  apply (numeric_run_returns decimal_int decimal_float flight_folder).
  intros f rest row j c _ Hrow Hj Hc.
  destruct Hrow as [<-|[<-|[<-|[]]]];
    destruct Hj as [<-|[<-|[<-|[]]]];
    injection Hc as <-; eexists; reflexivity.
Defined.

(** ** [camera_position_calculator]: the files it reads *)

(** X18: a run reads the first [.pos] file and the first [.MRK] file
    of the listing and no other: two directories with the same listing
    whose tables agree for these two files give the same result. *)
Theorem first_files_only :
  forall py_int py_float dir dir',
    listing dir' = listing dir ->
    (forall f rest,
        filter (fun f => ends_with f ".pos") (listing dir) = f :: rest ->
        pos_table dir' f = pos_table dir f) ->
    (forall f rest,
        filter (fun f => ends_with f ".MRK") (listing dir) = f :: rest ->
        mrk_table dir' f = mrk_table dir f) ->
    camera_position_calculator py_int py_float dir'
    = camera_position_calculator py_int py_float dir.
Proof.
  intros py_int py_float dir dir' Hl Hp Hm.
  unfold camera_position_calculator. rewrite Hl.
  destruct (filter is_image (listing dir)) as [|image images]; [reflexivity|].
  destruct (extract_ids py_int (image :: images)) as [ids|e]; [|reflexivity].
  cbn [bind].
  destruct (fst ids) as [|v valid]; [reflexivity|].
  destruct (filter (fun f => ends_with f ".pos") (listing dir))
    as [|rinex_file pos_rest] eqn:Ep; [reflexivity|].
  rewrite (Hp rinex_file pos_rest eq_refl).
  destruct (process_rinex_data py_float (pos_table dir rinex_file))
    as [|row rows]; [reflexivity|].
  destruct (filter (fun f => ends_with f ".MRK") (listing dir))
    as [|timestamp_file mrk_rest] eqn:Em; [reflexivity|].
  rewrite (Hm timestamp_file mrk_rest eq_refl).
  reflexivity.
Qed.

Lemma first_files_only_witness :
  camera_position_calculator decimal_int decimal_float
    (Folder (listing flight_folder)
            (fun f => if String.eqb f "track.pos" then flight_table else [])
            (fun f => if String.eqb f "shots.MRK" then shots_table else []))
  = camera_position_calculator decimal_int decimal_float flight_folder.
Proof.
  apply (first_files_only decimal_int decimal_float flight_folder).
  - reflexivity.
  - intros f rest H. vm_compute in H. injection H as <- _. reflexivity.
  - intros f rest H. vm_compute in H. injection H as <- _. reflexivity.
Defined.
